(** * Rice-husk circular-economy simulator: the formula engines

    A shallow embedding of the three "math engines" of the repository:

    - [WebApp]   : the module-level calculation block of [Rice_Web_App.py]
                   and [Rice_Web_App_updated.py] (variant A; the two blocks
                   are the same statements, only their comments differ);
    - [Gui]      : the method [RiceHuskMath.calculate] of
                   [updated_gui_ricehusk.py] (variant B, payback sentinel 99.9);
    - [WebOld]   : the function [calculate] of
                   [Rice_Web_App_OLD_BACKUP.py.py] (variant B, sentinel 0).

    The engines are written once, over an interface [Arith] of the Python
    number operations they use, and read at two carriers: exact rationals
    [Q] (the arithmetic the formulas denote) and IEEE-754 binary64
    (the arithmetic CPython's [float] performs). *)

From Stdlib Require Import ZArith QArith Lia Lqa Bool List.
From Stdlib Require Import Floats.
Import ListNotations.

Set Warnings "-inexact-float".

(** ** Outcomes of Python code *)

(** The exceptions the modelled code can raise: a division by zero, and
    the conversions [int(inf)] and [int(nan)]. *)
Inductive PyError : Set :=
| ZeroDivisionError
| OverflowError
| ValueError.

Inductive outcome (A : Type) : Type :=
| Ok (a : A)
| Raise (e : PyError).

Arguments Ok {A} a.
Arguments Raise {A} e.

Definition bind {A B : Type} (c : outcome A) (k : A -> outcome B) : outcome B :=
  match c with
  | Ok a => k a
  | Raise e => Raise e
  end.

Declare Scope py_scope.
Delimit Scope py_scope with py.
Notation "x <- c ;; k" := (bind c (fun x => k))
  (at level 61, c at next level, right associativity) : py_scope.

Definition returns {A : Type} (c : outcome A) : Prop := exists a, c = Ok a.

(** ** The number operations the engines use *)

(** [lit q] is the number literal written [q] in the source; [truediv] is
    Python's [/], which raises [ZeroDivisionError] on a zero divisor;
    [gt] is [>].  Python's [int] and [float] are read in one carrier: the
    sliders of the web pages deliver [int]s and those of the desktop window
    [float]s, and the engines mix both with [float] literals.  In binary64
    this reading is exact as long as the integers stay below [2^53]. *)
Class Arith (T : Type) : Type := {
  lit : Q -> T;
  add : T -> T -> T;
  sub : T -> T -> T;
  mul : T -> T -> T;
  truediv : T -> T -> outcome T;
  gt : T -> T -> bool
}.

Declare Scope num_scope.
Delimit Scope num_scope with num.
Infix "+" := add : num_scope.
Infix "-" := sub : num_scope.
Infix "*" := mul : num_scope.
Infix "/" := truediv : num_scope.
Infix ">?" := gt (at level 70, no associativity) : num_scope.

(** Python's builtin [max(a, b)]: the first argument is kept unless the
    second compares strictly greater. *)
Definition py_max {T : Type} `{Arith T} (a b : T) : T :=
  if (b >? a)%num then b else a.

(** *** Exact rationals *)

Definition Q_truediv (x y : Q) : outcome Q :=
  if Qeq_bool y 0 then Raise ZeroDivisionError else Ok (x / y)%Q.

Definition Q_gt (x y : Q) : bool := negb (Qle_bool x y).

#[export] Instance Q_Arith : Arith Q := {
  lit := fun q => q;
  add := Qplus;
  sub := Qminus;
  mul := Qmult;
  truediv := Q_truediv;
  gt := Q_gt
}.

(** *** IEEE-754 binary64 *)

(** A decimal literal [n/d] with [n] and [d] below [2^53] is read as the
    correctly rounded quotient of the two integers, which is the double
    nearest to the decimal. *)
Definition float_lit (q : Q) : float :=
  let n := PrimFloat.of_uint63 (Uint63.of_Z (Z.abs (Qnum q))) in
  let d := PrimFloat.of_uint63 (Uint63.of_pos (Qden q)) in
  if (Qnum q <? 0)%Z then PrimFloat.opp (PrimFloat.div n d)
  else PrimFloat.div n d.

Definition float_truediv (x y : float) : outcome float :=
  if PrimFloat.eqb y 0%float then Raise ZeroDivisionError
  else Ok (PrimFloat.div x y).

Definition float_gt (x y : float) : bool := PrimFloat.ltb y x.

#[export] Instance float_Arith : Arith float := {
  lit := float_lit;
  add := PrimFloat.add;
  sub := PrimFloat.sub;
  mul := PrimFloat.mul;
  truediv := float_truediv;
  gt := float_gt
}.

(** Closeness of two doubles, for the values the specification gives
    only approximately. *)
Definition float_close (x y : float) : bool :=
  PrimFloat.ltb (PrimFloat.abs (PrimFloat.sub x y)) 0x1p-20%float.

(** *** Python's [int] *)

(** [int(x)] on a number truncates toward zero; on a [float] it raises
    [OverflowError] at an infinity and [ValueError] at NaN. *)
Class PyInt (T : Type) : Type := {
  py_int : T -> outcome Z
}.

Definition Q_int (q : Q) : outcome Z :=
  Ok (Z.quot (Qnum q) (Zpos (Qden q))).


#[export] Instance Q_PyInt : PyInt Q := {| py_int := Q_int |}.


Local Open Scope py_scope.

(** ** Variant A: [Rice_Web_App.py], [Rice_Web_App_updated.py] *)

Module WebApp.

Section Engine.
Context {T : Type} `{Arith T}.
Local Open Scope num_scope.

(** The sidebar inputs. *)
Record Inputs : Type := {
  area : T;
  yield_per_ha : T;
  efficiency : T;
  season_days : T
}.

(** The module-level "scientific constants". *)
Record Constants : Type := {
  EF_FLOODED : T;
  EF_AWD : T;
  CV_HUSK : T;
  BIOCHAR_YIELD : T;
  PRICE_ELEC : T;
  PRICE_CHAR : T;
  PRICE_CARBON_CREDIT : T
}.

Definition constants : Constants := {|
  EF_FLOODED := lit 1.30;
  EF_AWD := lit 0.75;
  CV_HUSK := lit 14;
  BIOCHAR_YIELD := lit 0.25;
  PRICE_ELEC := lit 7.0;
  PRICE_CHAR := lit 15.0;
  PRICE_CARBON_CREDIT := lit 2500
|}.

(** The module globals the calculation block assigns. *)
Record Globals : Type := {
  total_paddy : T;
  husk_mass : T;
  energy_mj : T;
  energy_kwh : T;
  biochar_mass : T;
  methane_flooded : T;
  methane_awd : T;
  methane_avoided : T;
  co2_eq_tons : T;
  revenue_carbon : T;
  revenue_elec : T;
  revenue_char : T;
  total_revenue : T
}.

(** The block "# --- CALCULATIONS ---", statement by statement. *)
Definition calculations (c : Constants) (i : Inputs) : outcome Globals :=
  (* 1. Mass Balance *)
  let total_paddy := area i * yield_per_ha i in
  let husk_mass := total_paddy * lit 0.22 in
  (* 2. Energy Model *)
  let energy_mj := husk_mass * CV_HUSK c * efficiency i in
  energy_kwh <- energy_mj / lit 3.6 ;;
  (* 3. Biochar Model *)
  let biochar_mass := husk_mass * BIOCHAR_YIELD c in
  (* 4. Methane & Carbon Credit Model *)
  let methane_flooded := EF_FLOODED c * area i * season_days i in
  let methane_awd := EF_AWD c * area i * season_days i in
  let methane_avoided := methane_flooded - methane_awd in
  co2_eq_tons <- (methane_avoided * lit 28) / lit 1000 ;;
  let revenue_carbon := co2_eq_tons * PRICE_CARBON_CREDIT c in
  (* 5. Financials *)
  let revenue_elec := energy_kwh * PRICE_ELEC c in
  let revenue_char := biochar_mass * PRICE_CHAR c in
  let total_revenue := revenue_elec + revenue_char + revenue_carbon in
  Ok {| total_paddy := total_paddy;
        husk_mass := husk_mass;
        energy_mj := energy_mj;
        energy_kwh := energy_kwh;
        biochar_mass := biochar_mass;
        methane_flooded := methane_flooded;
        methane_awd := methane_awd;
        methane_avoided := methane_avoided;
        co2_eq_tons := co2_eq_tons;
        revenue_carbon := revenue_carbon;
        revenue_elec := revenue_elec;
        revenue_char := revenue_char;
        total_revenue := total_revenue |}.

(** The script as run: the block under the constants of the file. *)
Definition run (i : Inputs) : outcome Globals := calculations constants i.

End Engine.

Arguments Inputs T : clear implicits.
Arguments Constants T : clear implicits.
Arguments Globals T : clear implicits.

End WebApp.

(** ** Variant B: [updated_gui_ricehusk.py] *)

Module Gui.

Section Engine.
Context {T : Type} `{Arith T}.
Local Open Scope num_scope.

(** The attributes of a [RiceHuskMath] object. *)
Record RiceHuskMath : Type := {
  HUSK_RATIO : T;
  LHV : T;
  GEN_EFF : T;
  BIOCHAR_YIELD : T;
  EF_FLOODED : T;
  EF_AWD : T;
  PRICE_ELEC : T;
  PRICE_CHAR : T;
  CAPEX_PER_KW : T
}.

(** [RiceHuskMath.__init__]. *)
Definition init : RiceHuskMath := {|
  HUSK_RATIO := lit 0.22;
  LHV := lit 13.5;
  GEN_EFF := lit 0.30;
  BIOCHAR_YIELD := lit 0.20;
  EF_FLOODED := lit 30;
  EF_AWD := lit 16;
  PRICE_ELEC := lit 7.0;
  PRICE_CHAR := lit 15.0;
  CAPEX_PER_KW := lit 80000
|}.

(** The local variables of [calculate] when it reaches its [return]. *)
Record Locals : Type := {
  total_paddy : T;
  total_husk : T;
  energy_mj : T;
  energy_kwh : T;
  biochar_kg : T;
  ch4_saved : T;
  co2_equivalent : T;
  capacity_kw : T;
  capex : T;
  revenue : T;
  opex : T;
  profit : T;
  payback : T
}.

(** The dictionary [calculate] returns, one field per key. *)
Record Results : Type := {
  key_energy : T;
  key_biochar : T;
  key_co2 : T;
  key_revenue : T;
  key_payback : T
}.

(** The body of [calculate] up to its [return], statement by statement. *)
Definition calculate_locals (self : RiceHuskMath)
    (area paddy_yield gasifier_eff : T) : outcome Locals :=
  (* Step 1: Mass Balance *)
  let total_paddy := area * paddy_yield in
  let total_husk := total_paddy * HUSK_RATIO self in
  (* Step 2: Energy Model *)
  let energy_mj := total_husk * LHV self * gasifier_eff * GEN_EFF self in
  energy_kwh <- energy_mj / lit 3.6 ;;
  (* Step 3: Biochar Model *)
  let biochar_kg := total_husk * BIOCHAR_YIELD self in
  (* Step 4: Methane Model *)
  let ch4_saved := area * (EF_FLOODED self - EF_AWD self) in
  let co2_equivalent := ch4_saved * lit 28 in
  (* Step 5: Economics *)
  capacity_kw <- energy_kwh / lit 1000 ;;
  let capex := py_max capacity_kw (lit 5) * CAPEX_PER_KW self in
  let revenue := (energy_kwh * PRICE_ELEC self) + (biochar_kg * PRICE_CHAR self) in
  let opex := capex * lit 0.10 in
  let profit := revenue - opex in
  payback <- (if profit >? lit 0 then capex / profit else Ok (lit 99.9)) ;;
  Ok {| total_paddy := total_paddy;
        total_husk := total_husk;
        energy_mj := energy_mj;
        energy_kwh := energy_kwh;
        biochar_kg := biochar_kg;
        ch4_saved := ch4_saved;
        co2_equivalent := co2_equivalent;
        capacity_kw := capacity_kw;
        capex := capex;
        revenue := revenue;
        opex := opex;
        profit := profit;
        payback := payback |}.

(** The [return] statement. *)
Definition results_of (l : Locals) : Results :=
  {| key_energy := energy_kwh l;
     key_biochar := biochar_kg l;
     key_co2 := co2_equivalent l;
     key_revenue := revenue l;
     key_payback := payback l |}.

(** The method call [self.calculate(area, paddy_yield, gasifier_eff)]:
    its outcome is the returned dictionary together with the object as the
    call leaves it. *)
Definition calculate (self : RiceHuskMath)
    (area paddy_yield gasifier_eff : T) : outcome (Results * RiceHuskMath) :=
  l <- calculate_locals self area paddy_yield gasifier_eff ;;
  Ok (results_of l, self).

End Engine.

Arguments RiceHuskMath T : clear implicits.
Arguments Locals T : clear implicits.
Arguments Results T : clear implicits.

End Gui.

(** ** Variant B: [Rice_Web_App_OLD_BACKUP.py.py] *)

Module WebOld.

Section Engine.
Context {T : Type} `{Arith T}.
Local Open Scope num_scope.

(** The local variables of [calculate] when it reaches its [return]. *)
Record Locals : Type := {
  total_paddy : T;
  total_husk : T;
  energy_mj : T;
  energy_kwh : T;
  biochar_kg : T;
  ch4_saved : T;
  co2_eq : T;
  capacity_kw : T;
  capex : T;
  revenue : T;
  opex : T;
  profit : T;
  payback : T
}.

(** The body of [calculate] up to its [return], statement by statement. *)
Definition calculate_locals (area paddy_yield gasifier_eff : T)
    : outcome Locals :=
  (* Constants from SATEM-2025 Paper *)
  let HUSK_RATIO := lit 0.22 in
  let LHV := lit 13.5 in
  let GEN_EFF := lit 0.30 in
  let BIOCHAR_YIELD := lit 0.20 in
  let EF_FLOODED := lit 30 in
  let EF_AWD := lit 16 in
  let PRICE_ELEC := lit 7.0 in
  let PRICE_CHAR := lit 15.0 in
  let CAPEX_PER_KW := lit 80000 in
  (* Calculations *)
  let total_paddy := area * paddy_yield in
  let total_husk := total_paddy * HUSK_RATIO in
  (* Energy *)
  let energy_mj := total_husk * LHV * gasifier_eff * GEN_EFF in
  energy_kwh <- energy_mj / lit 3.6 ;;
  (* Biochar *)
  let biochar_kg := total_husk * BIOCHAR_YIELD in
  (* Methane *)
  let ch4_saved := area * (EF_FLOODED - EF_AWD) in
  let co2_eq := ch4_saved * lit 28 in
  (* Economics *)
  capacity_kw <- energy_kwh / lit 1000 ;;
  let capex := py_max capacity_kw (lit 5) * CAPEX_PER_KW in
  let revenue := (energy_kwh * PRICE_ELEC) + (biochar_kg * PRICE_CHAR) in
  let opex := capex * lit 0.10 in
  let profit := revenue - opex in
  payback <- (if profit >? lit 0 then capex / profit else Ok (lit 0)) ;;
  Ok {| total_paddy := total_paddy;
        total_husk := total_husk;
        energy_mj := energy_mj;
        energy_kwh := energy_kwh;
        biochar_kg := biochar_kg;
        ch4_saved := ch4_saved;
        co2_eq := co2_eq;
        capacity_kw := capacity_kw;
        capex := capex;
        revenue := revenue;
        opex := opex;
        profit := profit;
        payback := payback |}.

(** [calculate]: the returned 5-tuple
    [energy_kwh, biochar_kg, co2_eq, revenue, payback]. *)
Definition calculate (area paddy_yield gasifier_eff : T)
    : outcome (T * T * T * T * T) :=
  l <- calculate_locals area paddy_yield gasifier_eff ;;
  Ok (energy_kwh l, biochar_kg l, co2_eq l, revenue l, payback l).

End Engine.

Arguments Locals T : clear implicits.

End WebOld.

(** ** The scenarios of the specification *)

(** Variant A: area=5, yield=4500, efficiency=0.70, seasonDays=120.  The
    sliders deliver the integers as Python [int]s; they are read in the
    carrier, which is exact in binary64 for integers below [2^53]. *)
Definition scenario_A {T : Type} `{Arith T} : WebApp.Inputs T :=
  {| WebApp.area := lit 5;
     WebApp.yield_per_ha := lit 4500;
     WebApp.efficiency := lit 0.70;
     WebApp.season_days := lit 120 |}.

(** What the specification lists for a run of variant A, over the
    rationals: every value exactly. *)
Definition scenario_A_values_Q (g : WebApp.Globals Q) : Prop :=
  (WebApp.total_paddy g == 22500 /\
   WebApp.husk_mass g == 4950 /\
   WebApp.energy_kwh g == 4950 * 14 * 0.70 / 3.6 /\
   WebApp.energy_kwh g == 13475.0 /\
   WebApp.biochar_mass g == 1237.5 /\
   WebApp.methane_flooded g == 780 /\
   WebApp.methane_awd g == 450 /\
   WebApp.methane_avoided g == 330 /\
   WebApp.co2_eq_tons g == 9.24)%Q.

(** The same list over binary64: the doubles the run holds. *)
Definition scenario_A_values_float (g : WebApp.Globals float) : Prop :=
  WebApp.total_paddy g = 22500%float /\
  WebApp.husk_mass g = 4950%float /\
  WebApp.energy_kwh g = (4950 * 14 * 0.70 / 3.6)%float /\
  float_close (WebApp.energy_kwh g) 13475.0%float = true /\
  WebApp.biochar_mass g = 1237.5%float /\
  WebApp.methane_flooded g = 780%float /\
  WebApp.methane_awd g = 450%float /\
  WebApp.methane_avoided g = 330%float /\
  WebApp.co2_eq_tons g = 9.24%float.

(** Variant B: area=50, yield=4500, efficiency=0.70. *)
Definition scenario_B_values_Q
    (total_husk energy_kwh biochar_kg ch4_saved co2 : Q) : Prop :=
  (total_husk == 49500 /\
   energy_kwh == 49500 * 13.5 * 0.70 * 0.30 / 3.6 /\
   energy_kwh == 38981.25 /\
   biochar_kg == 9900 /\
   ch4_saved == 700 /\
   co2 == 19600)%Q.

Definition scenario_B_values_float
    (total_husk energy_kwh biochar_kg ch4_saved co2 : float) : Prop :=
  total_husk = 49500%float /\
  energy_kwh = (49500 * 13.5 * 0.70 * 0.30 / 3.6)%float /\
  float_close energy_kwh 38981.25%float = true /\
  biochar_kg = 9900%float /\
  ch4_saved = 700%float /\
  co2 = 19600%float.


(** ** Comparing the two implementations of variant B *)

(** What the two frames of local variables have in common: every value up
    to the payback, the payback itself when the profit is positive, and
    the two sentinels otherwise. *)
Definition agree_B {T : Type} `{Arith T}
    (lg : Gui.Locals T) (lw : WebOld.Locals T) : Prop :=
  Gui.energy_kwh lg = WebOld.energy_kwh lw /\
  Gui.biochar_kg lg = WebOld.biochar_kg lw /\
  Gui.co2_equivalent lg = WebOld.co2_eq lw /\
  Gui.revenue lg = WebOld.revenue lw /\
  Gui.capex lg = WebOld.capex lw /\
  Gui.profit lg = WebOld.profit lw /\
  (if (Gui.profit lg >? lit 0)%num
   then Gui.payback lg = WebOld.payback lw
   else Gui.payback lg = lit 99.9 /\ WebOld.payback lw = lit 0).

(** What the dictionary of the desktop engine and the tuple of the old
    web engine have in common, given the profit both computed: energy,
    biochar, CO2-equivalent and revenue, the payback when the profit is
    positive, and the two sentinels otherwise. *)
Definition agree_returned {T : Type} `{Arith T}
    (r : Gui.Results T) (t : T * T * T * T * T) (profit : T) : Prop :=
  let '(energy_kwh, biochar_kg, co2_eq, revenue, payback) := t in
  Gui.key_energy r = energy_kwh /\
  Gui.key_biochar r = biochar_kg /\
  Gui.key_co2 r = co2_eq /\
  Gui.key_revenue r = revenue /\
  (if (profit >? lit 0)%num
   then Gui.key_payback r = payback
   else Gui.key_payback r = lit 99.9 /\ payback = lit 0).

(** ** Input domains *)


(** The declared domain of the three inputs of variant B. *)
Definition in_domain (area paddy_yield gasifier_eff : Q) : Prop :=
  (0 <= area /\ 0 <= paddy_yield /\ 0 < gasifier_eff /\ gasifier_eff <= 1)%Q.

(** A call is rejected when it raises instead of returning. *)
Definition rejects {A : Type} (c : outcome A) : Prop :=
  exists e, c = Raise e.

(** ** The closed form of the emissions output *)

(** The closed form the specification gives for the CO2-equivalent of
    variant B: [area*(30-16)*28], a function of the area alone. *)
Definition spec_ch4_of_area {T : Type} `{Arith T} (area : T) : T :=
  (area * (lit 30 - lit 16))%num.

Definition spec_co2_of_area {T : Type} `{Arith T} (area : T) : T :=
  (spec_ch4_of_area area * lit 28)%num.

(** The positions of the area slider: the integers 1 to 100. *)
Definition slider_areas : list Z := List.map Z.of_nat (List.seq 1 100).

(** ** Inputs of variant A *)

Definition inputs_A {T : Type} `{Arith T} (area yield_per_ha efficiency
    season_days : T) : WebApp.Inputs T :=
  {| WebApp.area := area;
     WebApp.yield_per_ha := yield_per_ha;
     WebApp.efficiency := efficiency;
     WebApp.season_days := season_days |}.










(** ** The pages around the engines *)

(** *** Lists of outcomes *)

(** An element-wise computation: the first element that raises decides. *)
Fixpoint mapM {A B : Type} (f : A -> outcome B) (l : list A)
    : outcome (list B) :=
  match l with
  | [] => Ok []
  | a :: l' => b <- f a ;; bs <- mapM f l' ;; Ok (b :: bs)
  end.

(** Python's [max] of a non-empty sequence given as head and tail: the
    running maximum is replaced only by a strictly greater element. *)
Definition py_max_seq {T : Type} `{Arith T} (x : T) (xs : list T) : T :=
  List.fold_left py_max xs x.

(** [numpy.arange(start, stop, step)] on integers, for a positive step:
    [start, start+step, ...] as long as the value stays below [stop]. *)
Definition np_arange (start stop step : Z) : list Z :=
  List.map (fun k => (start + Z.of_nat k * step)%Z)
    (List.seq 0 (Z.to_nat ((stop - start + step - 1) / step))).

(** *** The two charts of [Rice_Web_App.py] and [Rice_Web_App_updated.py] *)

(** [areas_range = np.arange(1, 51, 5)]. *)
Definition areas_range : list Z := np_arange 1 51 5.

(** [savings_range = (EF_FLOODED - EF_AWD) * areas_range * season_days
    * 28 / 1000], element by element. *)
Definition savings_point {T : Type} `{Arith T} (c : WebApp.Constants T)
    (season_days : T) (a : Z) : outcome T :=
  ((WebApp.EF_FLOODED c - WebApp.EF_AWD c) * lit (inject_Z a) * season_days
   * lit 28 / lit 1000)%num.

Definition savings_range {T : Type} `{Arith T} (c : WebApp.Constants T)
    (season_days : T) : outcome (list T) :=
  mapM (savings_point c season_days) areas_range.

(** A product of 64-bit integers in numpy: it wraps around. *)
Definition wrap_int64 (z : Z) : Z :=
  ((z + 2 ^ 63) mod 2 ^ 64 - 2 ^ 63)%Z.

(** [revenue_range = (areas_range * yield_per_ha * 0.22 * CV_HUSK
    * efficiency / 3.6 * PRICE_ELEC)], element by element.  [areas_range]
    is an array of 64-bit integers and [yield_per_ha] the integer of the
    yield slider (any integer that fits in 64 bits): their product is a
    64-bit integer, and the multiplication by 0.22 makes it a number of the
    carrier. *)
Definition revenue_point {T : Type} `{Arith T} (c : WebApp.Constants T)
    (yield_per_ha : Z) (efficiency : T) (a : Z) : outcome T :=
  q <- (lit (inject_Z (wrap_int64 (a * yield_per_ha))) * lit 0.22
        * WebApp.CV_HUSK c * efficiency / lit 3.6)%num ;;
  Ok (q * WebApp.PRICE_ELEC c)%num.

Definition revenue_range {T : Type} `{Arith T} (c : WebApp.Constants T)
    (yield_per_ha : Z) (efficiency : T) : outcome (list T) :=
  mapM (revenue_point c yield_per_ha efficiency) areas_range.

(** The heights at which the first chart writes the two bar labels:
    [v + max(values) * offset] for [v] in
    [values = [methane_flooded, methane_awd]]; the offset is 0.02 in
    [Rice_Web_App.py] and 0.01 in [Rice_Web_App_updated.py]. *)
Definition label_heights {T : Type} `{Arith T} (offset : T)
    (g : WebApp.Globals T) : list T :=
  let values := [WebApp.methane_flooded g; WebApp.methane_awd g] in
  List.map
    (fun v => (v + py_max_seq (WebApp.methane_flooded g)
                     [WebApp.methane_awd g] * offset)%num)
    values.

(** The groups of globals of the calculation block: what the methane and
    carbon-credit model assigns, and what the mass, energy, biochar and
    their revenues are. *)
Definition WebApp_emissions {T : Type} `{Arith T} (c : WebApp.Constants T)
    (i : WebApp.Inputs T) : outcome (T * T * T * T * T) :=
  g <- WebApp.calculations c i ;;
  Ok (WebApp.methane_flooded g, WebApp.methane_awd g,
      WebApp.methane_avoided g, WebApp.co2_eq_tons g,
      WebApp.revenue_carbon g).

Definition WebApp_biomass {T : Type} `{Arith T} (c : WebApp.Constants T)
    (i : WebApp.Inputs T) : outcome (T * T * T * T * T * T * T) :=
  g <- WebApp.calculations c i ;;
  Ok (WebApp.total_paddy g, WebApp.husk_mass g, WebApp.energy_mj g,
      WebApp.energy_kwh g, WebApp.biochar_mass g, WebApp.revenue_elec g,
      WebApp.revenue_char g).

(** *** [ModernApp.update_simulation] of [updated_gui_ricehusk.py] *)

(** The text of the payback label: ["> 10 Years"], or the payback printed
    with one decimal. *)
Inductive payback_text (T : Type) : Type :=
| MoreThan10Years
| YearsOneDecimal (pb : T).

Arguments MoreThan10Years {T}.
Arguments YearsOneDecimal {T} pb.

(** What [update_simulation] writes: the three slider labels and the four
    cards show an [int(...)] (the cards through the thousands format), and the
    payback label its text. *)
Record Shown (T : Type) : Type := {
  lbl_area : Z;
  lbl_yield : Z;
  lbl_eff : Z;
  card_energy : Z;
  card_char : Z;
  card_co2 : Z;
  card_money : Z;
  lbl_payback : payback_text T
}.

Arguments lbl_area {T} s.
Arguments lbl_yield {T} s.
Arguments lbl_eff {T} s.
Arguments card_energy {T} s.
Arguments card_char {T} s.
Arguments card_co2 {T} s.
Arguments card_money {T} s.
Arguments lbl_payback {T} s.

(** Steps 2 to 4 of [update_simulation], on the slider values [area],
    [yld] and [eff], statement by statement; an [int(...)] that raises ends
    the method there. *)
Definition update_simulation {T : Type} `{Arith T} `{PyInt T}
    (math_engine : Gui.RiceHuskMath T) (area yld eff : T)
    : outcome (Shown T) :=
  (* 2. Update Labels *)
  lbl_area <- py_int area ;;
  lbl_yield <- py_int yld ;;
  lbl_eff <- py_int (eff * lit 100)%num ;;
  (* 3. Calculate Logic *)
  p <- Gui.calculate math_engine area yld eff ;;
  let results := fst p in
  (* 4. Update Result Cards *)
  card_energy <- py_int (Gui.key_energy results) ;;
  card_char <- py_int (Gui.key_biochar results) ;;
  card_co2 <- py_int (Gui.key_co2 results) ;;
  card_money <- py_int (Gui.key_revenue results) ;;
  let pb := Gui.key_payback results in
  let pb_text :=
    if (pb >? lit 10)%num then MoreThan10Years else YearsOneDecimal pb in
  Ok {| lbl_area := lbl_area;
        lbl_yield := lbl_yield;
        lbl_eff := lbl_eff;
        card_energy := card_energy;
        card_char := card_char;
        card_co2 := card_co2;
        card_money := card_money;
        lbl_payback := pb_text |}.


(** *** The page of [Rice_Web_App_OLD_BACKUP.py.py] *)

(** The efficiency slider gives a percentage; the page divides it by 100
    and runs the engine:
    [eff = st.slider(..., 40, 90, 70) / 100] and
    [en, char, co2, rev, pb = calculate(area, paddy_yield, eff)]. *)
Definition WebOld_page {T : Type} `{Arith T} (area paddy_yield percent : T)
    : outcome (T * T * T * T * T) :=
  eff <- (percent / lit 100)%num ;;
  WebOld.calculate area paddy_yield eff.

(** A point of the two series of the second chart is what the calculation
    block gives at that area: the CO2-equivalent, and the revenue from
    electricity. *)
Definition sweep_matches (yield_per_ha : Z) (efficiency season_days : Q)
    (a : Z) (p : Q * Q) : Prop :=
  exists g,
    WebApp.run (inputs_A (inject_Z a) (inject_Z yield_per_ha) efficiency
                  season_days) = Ok g /\
    (fst p == WebApp.co2_eq_tons g)%Q /\
    (snd p == WebApp.revenue_elec g)%Q /\
    (WebApp.total_revenue g - snd p
     == WebApp.revenue_char g + WebApp.revenue_carbon g)%Q.

(** Every output of a run of variant A is [k] times that of another. *)
Definition scaled_outputs_A (k : Q) (g gk : WebApp.Globals Q) : Prop :=
  (WebApp.husk_mass gk == k * WebApp.husk_mass g /\
   WebApp.energy_kwh gk == k * WebApp.energy_kwh g /\
   WebApp.biochar_mass gk == k * WebApp.biochar_mass g /\
   WebApp.methane_avoided gk == k * WebApp.methane_avoided g /\
   WebApp.co2_eq_tons gk == k * WebApp.co2_eq_tons g /\
   WebApp.total_revenue gk == k * WebApp.total_revenue g)%Q.

(** Every output of a run of variant A is zero. *)
Definition zero_outputs_A (g : WebApp.Globals Q) : Prop :=
  (WebApp.husk_mass g == 0 /\
   WebApp.energy_kwh g == 0 /\
   WebApp.biochar_mass g == 0 /\
   WebApp.methane_avoided g == 0 /\
   WebApp.co2_eq_tons g == 0 /\
   WebApp.total_revenue g == 0)%Q.

(** ** Slider positions in binary64 *)


(** An integer slider position as a double, and the efficiency the web
    pages compute from the percentage [p]: [p / 100]. *)
Definition float_of_Z (z : Z) : float := float_lit (inject_Z z).


















(** Calls of variant B on [float] arguments outside the declared domain:
    negative area, negative yield, efficiency above 1, zero and negative
    efficiency, infinite area and NaN area. *)
Definition invalid_float_inputs : list (float * float * float) :=
  [ ((-1)%float, 4500%float, 0.70%float);
    (50%float, (-4500)%float, 0.70%float);
    (50%float, 4500%float, 1.5%float);
    (50%float, 4500%float, 0%float);
    (50%float, 4500%float, (-0.2)%float);
    (infinity, 4500%float, 0.70%float);
    (nan, 4500%float, 0.70%float) ].

(** Both engines return on the call. *)
Definition both_return (t : float * float * float) : bool :=
  let '(a, y, e) := t in
  match Gui.calculate Gui.init a y e, WebOld.calculate a y e with
  | Ok _, Ok _ => true
  | _, _ => false
  end.


(** In binary64, at the integer area [k], [k * (30 - 16) * 28] is the
    double [392 * k]. *)
Definition co2_is_392_area (k : Z) : bool :=
  PrimFloat.Leibniz.eqb (spec_co2_of_area (float_of_Z k))
    (float_of_Z (392 * k)).

(** ** Theorems *)

(** C1: under the constants of variant A (husk fraction 0.22, calorific
    value 14, biochar yield 0.25, emission factors 1.30 and 0.75, GWP 28)
    the input area=5, yield=4500, efficiency=0.70, seasonDays=120 gives
    totalPaddyKg=22500, huskMassKg=4950, energyKwh=4950*14*0.70/3.6, about
    13475.0, biocharMassKg=1237.5, methaneFloodedKg=780, methaneAwdKg=450,
    methaneAvoidedKg=330 and co2EquivalentTons=9.24; exactly so over the
    rationals, and as these very doubles in binary64. *)
Theorem scenario_variant_A :
  (exists g, WebApp.run (T := Q) scenario_A = Ok g /\ scenario_A_values_Q g) /\
  (exists g, WebApp.run (T := float) scenario_A = Ok g /\
             scenario_A_values_float g).
Proof.
  split.
  - eexists. split; [vm_compute; reflexivity|].
    unfold scenario_A_values_Q. cbn [WebApp.total_paddy WebApp.husk_mass
      WebApp.energy_kwh WebApp.biochar_mass WebApp.methane_flooded
      WebApp.methane_awd WebApp.methane_avoided WebApp.co2_eq_tons].
    repeat split; reflexivity.
  - eexists. split; [vm_compute; reflexivity|].
    unfold scenario_A_values_float. cbn [WebApp.total_paddy WebApp.husk_mass
      WebApp.energy_kwh WebApp.biochar_mass WebApp.methane_flooded
      WebApp.methane_awd WebApp.methane_avoided WebApp.co2_eq_tons].
    repeat split; vm_compute; reflexivity.
Qed.

(** C2: under the constants of variant B (husk ratio 0.22, LHV 13.5,
    generator efficiency 0.30, biochar yield 0.20, flat emission factors 30
    and 16, GWP 28) the input area=50, yield=4500, efficiency=0.70 gives
    totalHuskKg=49500, energyKwh=49500*13.5*0.70*0.30/3.6, about 38981.25,
    biocharKg=9900, ch4SavedKg=700 and co2Kg=19600, in both implementations
    of the variant: energy, biochar and CO2-equivalent are read off the
    dictionary, respectively the tuple, that [calculate] returns, husk and
    methane saved off its local variables; exactly so over the rationals,
    and in binary64 with every value the double the specification writes
    (the energy within [2^-20] of 38981.25). *)
Theorem scenario_variant_B :
  (exists l r,
     Gui.calculate_locals (T := Q) Gui.init (lit 50) (lit 4500) (lit 0.70)
       = Ok l /\
     Gui.calculate (T := Q) Gui.init (lit 50) (lit 4500) (lit 0.70)
       = Ok (r, Gui.init) /\
     scenario_B_values_Q (Gui.total_husk l) (Gui.key_energy r)
       (Gui.key_biochar r) (Gui.ch4_saved l) (Gui.key_co2 r)) /\
  (exists l energy_kwh biochar_kg co2_eq revenue payback,
     WebOld.calculate_locals (T := Q) (lit 50) (lit 4500) (lit 0.70) = Ok l /\
     WebOld.calculate (T := Q) (lit 50) (lit 4500) (lit 0.70)
       = Ok (energy_kwh, biochar_kg, co2_eq, revenue, payback) /\
     scenario_B_values_Q (WebOld.total_husk l) energy_kwh biochar_kg
       (WebOld.ch4_saved l) co2_eq) /\
  (exists l r,
     Gui.calculate_locals (T := float) Gui.init (lit 50) (lit 4500)
       (lit 0.70) = Ok l /\
     Gui.calculate (T := float) Gui.init (lit 50) (lit 4500) (lit 0.70)
       = Ok (r, Gui.init) /\
     scenario_B_values_float (Gui.total_husk l) (Gui.key_energy r)
       (Gui.key_biochar r) (Gui.ch4_saved l) (Gui.key_co2 r)) /\
  (exists l energy_kwh biochar_kg co2_eq revenue payback,
     WebOld.calculate_locals (T := float) (lit 50) (lit 4500) (lit 0.70)
       = Ok l /\
     WebOld.calculate (T := float) (lit 50) (lit 4500) (lit 0.70)
       = Ok (energy_kwh, biochar_kg, co2_eq, revenue, payback) /\
     scenario_B_values_float (WebOld.total_husk l) energy_kwh biochar_kg
       (WebOld.ch4_saved l) co2_eq).
Proof.
  split; [|split; [|split]].
  - do 2 eexists. split; [vm_compute; reflexivity|].
    split; [vm_compute; reflexivity|].
    unfold scenario_B_values_Q. cbn [Gui.total_husk Gui.key_energy
      Gui.key_biochar Gui.ch4_saved Gui.key_co2].
    repeat split; reflexivity.
  - do 6 eexists. split; [vm_compute; reflexivity|].
    split; [vm_compute; reflexivity|].
    unfold scenario_B_values_Q.
    cbn [WebOld.total_husk WebOld.ch4_saved].
    repeat split; reflexivity.
  - do 2 eexists. split; [vm_compute; reflexivity|].
    split; [vm_compute; reflexivity|].
    unfold scenario_B_values_float. cbn [Gui.total_husk Gui.key_energy
      Gui.key_biochar Gui.ch4_saved Gui.key_co2].
    repeat split; vm_compute; reflexivity.
  - do 6 eexists. split; [vm_compute; reflexivity|].
    split; [vm_compute; reflexivity|].
    unfold scenario_B_values_float.
    cbn [WebOld.total_husk WebOld.ch4_saved].
    repeat split; vm_compute; reflexivity.
Qed.

(** ** The engines return *)

(** Each engine divides three times at most: by the literals 3.6 and 1000,
    and, in variant B, by a profit it has just tested positive.  Where these
    divisions return, the engine returns. *)

Ltac gui_fields :=
  cbn [Gui.total_paddy Gui.total_husk Gui.energy_mj Gui.energy_kwh
       Gui.biochar_kg Gui.ch4_saved Gui.co2_equivalent Gui.capacity_kw
       Gui.capex Gui.revenue Gui.opex Gui.profit Gui.payback
       Gui.key_energy Gui.key_biochar Gui.key_co2 Gui.key_revenue
       Gui.key_payback Gui.results_of].

Ltac webold_fields :=
  cbn [WebOld.total_paddy WebOld.total_husk WebOld.energy_mj
       WebOld.energy_kwh WebOld.biochar_kg WebOld.ch4_saved WebOld.co2_eq
       WebOld.capacity_kw WebOld.capex WebOld.revenue WebOld.opex
       WebOld.profit WebOld.payback].

Ltac webapp_fields :=
  cbn [WebApp.total_paddy WebApp.husk_mass WebApp.energy_mj
       WebApp.energy_kwh WebApp.biochar_mass WebApp.methane_flooded
       WebApp.methane_awd WebApp.methane_avoided WebApp.co2_eq_tons
       WebApp.revenue_carbon WebApp.revenue_elec WebApp.revenue_char
       WebApp.total_revenue].

Ltac gui_init :=
  cbn [Gui.init Gui.HUSK_RATIO Gui.LHV Gui.GEN_EFF Gui.BIOCHAR_YIELD
       Gui.EF_FLOODED Gui.EF_AWD Gui.PRICE_ELEC Gui.PRICE_CHAR
       Gui.CAPEX_PER_KW].

Section Returns.
Context {T : Type} `{Arith T}.
Local Open Scope num_scope.

Hypothesis div_3_6 : forall x, returns (x / lit 3.6).
Hypothesis div_1000 : forall x, returns (x / lit 1000).
Hypothesis div_positive : forall x y, (y >? lit 0) = true -> returns (x / y).

Ltac by_literal :=
  match goal with
  | |- context [bind (?x / lit 3.6) _] =>
      let q := fresh "q" in let E := fresh "E" in
      destruct (div_3_6 x) as [q E]; rewrite E; cbn [bind]
  | |- context [bind (?x / lit 1000) _] =>
      let q := fresh "q" in let E := fresh "E" in
      destruct (div_1000 x) as [q E]; rewrite E; cbn [bind]
  end.


Lemma Gui_calculate_locals_returns (self : Gui.RiceHuskMath T) (a y e : T) :
  exists l, Gui.calculate_locals self a y e = Ok l /\
    Gui.total_husk l = a * y * Gui.HUSK_RATIO self /\
    Gui.total_husk l * Gui.LHV self * e * Gui.GEN_EFF self / lit 3.6
      = Ok (Gui.energy_kwh l) /\
    Gui.biochar_kg l = Gui.total_husk l * Gui.BIOCHAR_YIELD self /\
    Gui.ch4_saved l = a * (Gui.EF_FLOODED self - Gui.EF_AWD self) /\
    Gui.co2_equivalent l = Gui.ch4_saved l * lit 28 /\
    Gui.energy_kwh l / lit 1000 = Ok (Gui.capacity_kw l) /\
    Gui.capex l = py_max (Gui.capacity_kw l) (lit 5) * Gui.CAPEX_PER_KW self /\
    Gui.revenue l = Gui.energy_kwh l * Gui.PRICE_ELEC self
                    + Gui.biochar_kg l * Gui.PRICE_CHAR self /\
    Gui.profit l = Gui.revenue l - Gui.capex l * lit 0.10 /\
    (if Gui.profit l >? lit 0
     then Gui.capex l / Gui.profit l = Ok (Gui.payback l)
     else Gui.payback l = lit 99.9).
Proof.
  unfold Gui.calculate_locals. cbv zeta.
  do 2 by_literal.
  match goal with
  | |- context [if ?p >? lit 0 then ?c / ?p else _] =>
      destruct (p >? lit 0) eqn:G;
      [ let r := fresh "r" in let E := fresh "E" in
        destruct (div_positive c p G) as [r E]; rewrite E | ]
  end; cbn [bind];
  (eexists; split; [reflexivity|]; gui_fields; rewrite G;
   repeat split; assumption || reflexivity).
Qed.

Lemma WebOld_calculate_locals_returns (a y e : T) :
  exists l, WebOld.calculate_locals a y e = Ok l /\
    WebOld.total_husk l = a * y * lit 0.22 /\
    WebOld.total_husk l * lit 13.5 * e * lit 0.30 / lit 3.6
      = Ok (WebOld.energy_kwh l) /\
    WebOld.biochar_kg l = WebOld.total_husk l * lit 0.20 /\
    WebOld.ch4_saved l = a * (lit 30 - lit 16) /\
    WebOld.co2_eq l = WebOld.ch4_saved l * lit 28 /\
    WebOld.energy_kwh l / lit 1000 = Ok (WebOld.capacity_kw l) /\
    WebOld.capex l = py_max (WebOld.capacity_kw l) (lit 5) * lit 80000 /\
    WebOld.revenue l = WebOld.energy_kwh l * lit 7.0
                       + WebOld.biochar_kg l * lit 15.0 /\
    WebOld.profit l = WebOld.revenue l - WebOld.capex l * lit 0.10 /\
    (if WebOld.profit l >? lit 0
     then WebOld.capex l / WebOld.profit l = Ok (WebOld.payback l)
     else WebOld.payback l = lit 0).
Proof.
  unfold WebOld.calculate_locals. cbv zeta.
  do 2 by_literal.
  match goal with
  | |- context [if ?p >? lit 0 then ?c / ?p else _] =>
      destruct (p >? lit 0) eqn:G;
      [ let r := fresh "r" in let E := fresh "E" in
        destruct (div_positive c p G) as [r E]; rewrite E | ]
  end; cbn [bind];
  (eexists; split; [reflexivity|]; webold_fields; rewrite G;
   repeat split; assumption || reflexivity).
Qed.

Lemma Gui_calculate_of_locals (self : Gui.RiceHuskMath T) (a y e : T) l :
  Gui.calculate_locals self a y e = Ok l ->
  Gui.calculate self a y e = Ok (Gui.results_of l, self).
Proof. intros E. unfold Gui.calculate. rewrite E. reflexivity. Qed.

Lemma WebOld_calculate_of_locals (a y e : T) l :
  WebOld.calculate_locals a y e = Ok l ->
  WebOld.calculate a y e =
    Ok (WebOld.energy_kwh l, WebOld.biochar_kg l, WebOld.co2_eq l,
        WebOld.revenue l, WebOld.payback l).
Proof. intros E. unfold WebOld.calculate. rewrite E. reflexivity. Qed.

Lemma variant_B_agree (a y e : T) :
  exists lg lw,
    Gui.calculate_locals Gui.init a y e = Ok lg /\
    WebOld.calculate_locals a y e = Ok lw /\
    agree_B lg lw.
Proof.
  unfold Gui.calculate_locals, WebOld.calculate_locals. gui_init. cbv zeta.
  do 2 by_literal.
  match goal with
  | |- context [if ?p >? lit 0 then ?c / ?p else _] =>
      destruct (p >? lit 0) eqn:G;
      [ let r := fresh "r" in let E := fresh "E" in
        destruct (div_positive c p G) as [r E]; rewrite E | ]
  end; cbn [bind];
  (do 2 eexists; split; [reflexivity|]; split; [reflexivity|];
   unfold agree_B; gui_fields; webold_fields; rewrite G;
   repeat split; reflexivity).
Qed.

End Returns.

(** ** The two carriers *)

Lemma Q_truediv_nonzero (x y : Q) :
  Qeq_bool y 0 = false -> Q_truediv x y = Ok (x / y)%Q.
Proof. intros E. unfold Q_truediv. rewrite E. reflexivity. Qed.

Lemma Q_truediv_Ok (x y q : Q) :
  Q_truediv x y = Ok q -> q = (x / y)%Q /\ ~ (y == 0)%Q.
Proof.
  unfold Q_truediv. destruct (Qeq_bool y 0) eqn:E; [discriminate|].
  intros [= <-]. split; [reflexivity|].
  intros Z. apply Qeq_bool_iff in Z. congruence.
Qed.

Lemma Q_gt_true (x y : Q) : Q_gt x y = true <-> (y < x)%Q.
Proof.
  unfold Q_gt. rewrite negb_true_iff. split; intros E.
  - apply Qnot_le_lt. intros L. apply Qle_bool_iff in L. congruence.
  - destruct (Qle_bool x y) eqn:L; [|reflexivity].
    apply Qle_bool_iff in L. exfalso. apply (Qlt_not_le _ _ E L).
Qed.

Lemma Q_gt_false (x y : Q) : Q_gt x y = false <-> (x <= y)%Q.
Proof. unfold Q_gt. rewrite negb_false_iff. apply Qle_bool_iff. Qed.

Lemma Q_div_3_6 (x : Q) : returns (truediv x (lit 3.6)).
Proof. eexists. apply Q_truediv_nonzero. reflexivity. Qed.

Lemma Q_div_1000 (x : Q) : returns (truediv x (lit 1000)).
Proof. eexists. apply Q_truediv_nonzero. reflexivity. Qed.

Lemma Q_div_positive (x y : Q) : gt y (lit 0) = true -> returns (truediv x y).
Proof.
  intros G. apply Q_gt_true in G. eexists. apply Q_truediv_nonzero.
  destruct (Qeq_bool y 0) eqn:E; [|reflexivity].
  apply Qeq_bool_iff in E. cbn [lit Q_Arith] in G. rewrite E in G.
  discriminate G.
Qed.

Lemma float_positive_nonzero (x : float) :
  PrimFloat.ltb 0 x = true -> PrimFloat.eqb x 0 = false.
Proof.
  rewrite ltb_spec, eqb_spec.
  replace (Prim2SF 0) with (S754_zero false) by reflexivity.
  destruct (Prim2SF x) as [s|s| |s m e]; try destruct s; cbn; congruence.
Qed.

(** [float_lit] yields the doubles CPython reads from the literals of the
    three files. *)
Lemma float_lit_literals :
  float_lit 0.22 = 0.22%float /\ float_lit 13.5 = 13.5%float /\
  float_lit 0.30 = 0.30%float /\ float_lit 0.20 = 0.20%float /\
  float_lit 0.25 = 0.25%float /\ float_lit 1.30 = 1.30%float /\
  float_lit 0.75 = 0.75%float /\ float_lit 3.6 = 3.6%float /\
  float_lit 0.10 = 0.10%float /\ float_lit 99.9 = 99.9%float /\
  float_lit 7.0 = 7.0%float /\ float_lit 15.0 = 15.0%float /\
  float_lit 80000 = 80000%float /\ float_lit 2500 = 2500%float.
Proof. repeat split; reflexivity. Qed.

Lemma float_div_3_6 (x : float) : returns (truediv x (lit 3.6)).
Proof. eexists. reflexivity. Qed.

Lemma float_div_1000 (x : float) : returns (truediv x (lit 1000)).
Proof. eexists. reflexivity. Qed.

Lemma float_div_positive (x y : float) :
  gt y (lit 0) = true -> returns (truediv x y).
Proof.
  intros G. cbn [gt truediv float_Arith] in *. unfold float_gt in G.
  change (lit 0) with 0%float in G.
  unfold float_truediv. rewrite (float_positive_nonzero y G).
  eexists. reflexivity.
Qed.

(** ** The engines over the rationals, in closed form *)

Local Open Scope Q_scope.

Ltac q_ops := cbn [lit add sub mul truediv gt Q_Arith] in *.

Ltac q_inverses :=
  unfold Qdiv in *;
  change (/ 3.6) with (10 # 36) in *;
  change (/ 1000) with (1 # 1000) in *.


Lemma Q_guard (profit capex payback sentinel : Q) :
  (if Q_gt profit 0 then Q_truediv capex profit = Ok payback
   else payback = sentinel) ->
  (profit <= 0 -> payback = sentinel) /\
  (0 < profit -> payback = capex / profit).
Proof.
  destruct (Q_gt profit 0) eqn:G; intros P.
  - apply Q_gt_true in G. apply Q_truediv_Ok in P. split.
    + intros L. exfalso. apply (Qlt_not_le _ _ G L).
    + intros _. apply P.
  - apply Q_gt_false in G. split.
    + intros _. exact P.
    + intros L. exfalso. apply (Qlt_not_le _ _ L G).
Qed.

Lemma Gui_calculate_locals_Q (self : Gui.RiceHuskMath Q) (a y e : Q) :
  exists l, Gui.calculate_locals self a y e = Ok l /\
    Gui.total_husk l = a * y * Gui.HUSK_RATIO self /\
    Gui.energy_kwh l =
      Gui.total_husk l * Gui.LHV self * e * Gui.GEN_EFF self / 3.6 /\
    Gui.biochar_kg l = Gui.total_husk l * Gui.BIOCHAR_YIELD self /\
    Gui.ch4_saved l = a * (Gui.EF_FLOODED self - Gui.EF_AWD self) /\
    Gui.co2_equivalent l = Gui.ch4_saved l * 28 /\
    Gui.revenue l = Gui.energy_kwh l * Gui.PRICE_ELEC self
                    + Gui.biochar_kg l * Gui.PRICE_CHAR self /\
    Gui.profit l = Gui.revenue l - Gui.capex l * 0.10 /\
    (Gui.profit l <= 0 -> Gui.payback l = 99.9) /\
    (0 < Gui.profit l -> Gui.payback l = Gui.capex l / Gui.profit l).
Proof.
  destruct (Gui_calculate_locals_returns Q_div_3_6 Q_div_1000 Q_div_positive
              self a y e)
    as (l & E & Hh & He & Hb & Hm & Hc & _ & _ & Hr & Hp & Hg).
  q_ops. apply Q_truediv_Ok in He. apply Q_guard in Hg.
  exists l. repeat split; tauto.
Qed.

Lemma WebOld_calculate_locals_Q (a y e : Q) :
  exists l, WebOld.calculate_locals a y e = Ok l /\
    WebOld.total_husk l = a * y * 0.22 /\
    WebOld.energy_kwh l = WebOld.total_husk l * 13.5 * e * 0.30 / 3.6 /\
    WebOld.biochar_kg l = WebOld.total_husk l * 0.20 /\
    WebOld.ch4_saved l = a * (30 - 16) /\
    WebOld.co2_eq l = WebOld.ch4_saved l * 28 /\
    WebOld.revenue l = WebOld.energy_kwh l * 7.0 + WebOld.biochar_kg l * 15.0 /\
    WebOld.profit l = WebOld.revenue l - WebOld.capex l * 0.10 /\
    (WebOld.profit l <= 0 -> WebOld.payback l = 0) /\
    (0 < WebOld.profit l -> WebOld.payback l = WebOld.capex l / WebOld.profit l).
Proof.
  destruct (WebOld_calculate_locals_returns Q_div_3_6 Q_div_1000
              Q_div_positive a y e)
    as (l & E & Hh & He & Hb & Hm & Hc & _ & _ & Hr & Hp & Hg).
  q_ops. apply Q_truediv_Ok in He. apply Q_guard in Hg.
  exists l. repeat split; tauto.
Qed.

Lemma float_guard (profit capex payback sentinel : float) :
  (if float_gt profit 0 then float_truediv capex profit = Ok payback
   else payback = sentinel) ->
  (PrimFloat.ltb 0 profit = false -> payback = sentinel) /\
  (PrimFloat.ltb 0 profit = true -> payback = PrimFloat.div capex profit).
Proof.
  unfold float_gt, float_truediv.
  destruct (PrimFloat.ltb 0 profit) eqn:G; intros P.
  - rewrite (float_positive_nonzero profit G) in P. injection P as <-.
    split; [discriminate | reflexivity].
  - split; [intros _; exact P | discriminate].
Qed.

(** C3: in variant B the payback never divides by a non-positive profit.
    For every object and every input the engine returns its local frame
    and its dictionary (no division fault), over the rationals and in
    binary64 alike; when the test [profit > 0] fails the payback is the
    sentinel of the source (99.9 in the desktop engine, 0 in the old web
    engine), a finite non-negative number; the quotient [capex / profit]
    is taken only when [profit > 0] holds. *)
Theorem payback_guard :
  (forall (self : Gui.RiceHuskMath Q) (a y e : Q),
     exists l, Gui.calculate_locals self a y e = Ok l /\
       Gui.calculate self a y e = Ok (Gui.results_of l, self) /\
       (Gui.profit l <= 0 -> Gui.key_payback (Gui.results_of l) = 99.9) /\
       (0 < Gui.profit l ->
        Gui.key_payback (Gui.results_of l) = Gui.capex l / Gui.profit l)) /\
  (forall a y e : Q,
     exists l, WebOld.calculate_locals a y e = Ok l /\
       WebOld.calculate a y e =
         Ok (WebOld.energy_kwh l, WebOld.biochar_kg l, WebOld.co2_eq l,
             WebOld.revenue l, WebOld.payback l) /\
       (WebOld.profit l <= 0 -> WebOld.payback l = 0) /\
       (0 < WebOld.profit l ->
        WebOld.payback l = WebOld.capex l / WebOld.profit l)) /\
  (forall (self : Gui.RiceHuskMath float) (a y e : float),
     exists l, Gui.calculate_locals self a y e = Ok l /\
       Gui.calculate self a y e = Ok (Gui.results_of l, self) /\
       (PrimFloat.ltb 0 (Gui.profit l) = false ->
        Gui.key_payback (Gui.results_of l) = 99.9%float) /\
       (PrimFloat.ltb 0 (Gui.profit l) = true ->
        Gui.key_payback (Gui.results_of l)
          = PrimFloat.div (Gui.capex l) (Gui.profit l))) /\
  (forall a y e : float,
     exists l, WebOld.calculate_locals a y e = Ok l /\
       WebOld.calculate a y e =
         Ok (WebOld.energy_kwh l, WebOld.biochar_kg l, WebOld.co2_eq l,
             WebOld.revenue l, WebOld.payback l) /\
       (PrimFloat.ltb 0 (WebOld.profit l) = false ->
        WebOld.payback l = 0%float) /\
       (PrimFloat.ltb 0 (WebOld.profit l) = true ->
        WebOld.payback l
          = PrimFloat.div (WebOld.capex l) (WebOld.profit l))) /\
  (0 <= 99.9 /\ 0 <= 0) /\
  (PrimFloat.is_finite 99.9 = true /\ PrimFloat.leb 0 99.9 = true /\
   PrimFloat.is_finite 0 = true /\ PrimFloat.leb 0 0 = true).
Proof.
  split; [|split; [|split; [|split; [|split]]]].
  - intros self a y e.
    destruct (Gui_calculate_locals_Q self a y e)
      as (l & E & _ & _ & _ & _ & _ & _ & _ & S & D).
    exists l. split; [exact E|]. split; [apply Gui_calculate_of_locals, E|].
    gui_fields. split; assumption.
  - intros a y e.
    destruct (WebOld_calculate_locals_Q a y e)
      as (l & E & _ & _ & _ & _ & _ & _ & _ & S & D).
    exists l. split; [exact E|].
    split; [apply WebOld_calculate_of_locals, E|]. split; assumption.
  - intros self a y e.
    destruct (Gui_calculate_locals_returns float_div_3_6 float_div_1000
                float_div_positive self a y e)
      as (l & E & _ & _ & _ & _ & _ & _ & _ & _ & _ & G).
    exists l. split; [exact E|]. split; [apply Gui_calculate_of_locals, E|].
    gui_fields. apply float_guard. exact G.
  - intros a y e.
    destruct (WebOld_calculate_locals_returns float_div_3_6 float_div_1000
                float_div_positive a y e)
      as (l & E & _ & _ & _ & _ & _ & _ & _ & _ & _ & G).
    exists l. split; [exact E|].
    split; [apply WebOld_calculate_of_locals, E|].
    apply float_guard. exact G.
  - split; [discriminate | apply Qle_refl].
  - repeat split; reflexivity.
Qed.

(** The guard at work: area=1, yield=2000, efficiency=0.40 earns less than
    the upkeep of the minimum 5 kW plant, and the payback is the
    sentinel. *)
Lemma payback_guard_witness :
  exists l, Gui.calculate_locals (T := Q) Gui.init 1 2000 0.40 = Ok l /\
    Gui.profit l <= 0 /\ Gui.key_payback (Gui.results_of l) = 99.9.
Proof.
  destruct (proj1 payback_guard Gui.init 1 2000 0.40) as (l & E & _ & S & _).
  exists l. split; [exact E|].
  assert (P : Gui.profit l <= 0).
  { vm_compute in E. injection E as <-. vm_compute. discriminate. }
  split; [exact P | exact (S P)].
Defined.

(** ** Growth in area and yield *)

Ltac webapp_consts :=
  cbn [WebApp.constants WebApp.CV_HUSK WebApp.EF_FLOODED WebApp.EF_AWD
       WebApp.BIOCHAR_YIELD WebApp.PRICE_ELEC WebApp.PRICE_CHAR
       WebApp.PRICE_CARBON_CREDIT inputs_A WebApp.area WebApp.yield_per_ha
       WebApp.efficiency WebApp.season_days] in *.



Ltac gui_consts :=
  cbn [Gui.init Gui.HUSK_RATIO Gui.LHV Gui.GEN_EFF Gui.BIOCHAR_YIELD
       Gui.EF_FLOODED Gui.EF_AWD Gui.PRICE_ELEC Gui.PRICE_CHAR
       Gui.CAPEX_PER_KW] in *.










(** ** No validation of inputs *)

(** At area=-1, yield=4500, efficiency=0.70, outside the declared domain,
    neither engine of variant B rejects the call: each returns a record,
    over the rationals and in binary64, and the energy in it is negative.
    The claim that every input outside the domain is rejected fails. *)
Lemma invalid_input_accepted :
  ~ in_domain (-1) 4500 0.70 /\
  ~ rejects (Gui.calculate (T := Q) Gui.init (-1) 4500 0.70) /\
  ~ rejects (WebOld.calculate (T := Q) (-1) 4500 0.70) /\
  (exists r, Gui.calculate (T := Q) Gui.init (-1) 4500 0.70
               = Ok (r, Gui.init) /\ Gui.key_energy r < 0) /\
  (exists r, Gui.calculate (T := float) Gui.init (lit (-1)) (lit 4500)
               (lit 0.70) = Ok (r, Gui.init) /\
             PrimFloat.ltb (Gui.key_energy r) 0 = true).
Proof.
  split; [|split; [|split; [|split]]].
  - unfold in_domain. intros [N _]. revert N. vm_compute. congruence.
  - intros [err R]. vm_compute in R. discriminate R.
  - intros [err R]. vm_compute in R. discriminate R.
  - eexists. split; [vm_compute; reflexivity|]. vm_compute. reflexivity.
  - eexists. split; [vm_compute; reflexivity|]. vm_compute. reflexivity.
Qed.

Lemma Gui_negative_area (a y e : Q) :
  a < 0 -> 0 < y -> 0 < e ->
  exists l, Gui.calculate_locals Gui.init a y e = Ok l /\
    Gui.energy_kwh l < 0 /\ Gui.biochar_kg l < 0 /\
    Gui.co2_equivalent l < 0 /\ Gui.revenue l < 0.
Proof.
  intros Ha Hy He.
  destruct (Gui_calculate_locals_Q Gui.init a y e)
    as (l & E & Hh & Hk & Hb & Hm & Hc & Hr & _).
  exists l. split; [exact E|].
  gui_consts. q_ops.
  rewrite Hr, Hc, Hm, Hb, Hk, Hh. q_inverses.
  assert (N : a * y < 0 * y) by (apply Qmult_lt_compat_r; assumption).
  assert (N2 : a * y * e < 0 * y * e) by (apply Qmult_lt_compat_r; assumption).
  repeat split; lra.
Qed.

Lemma WebOld_negative_area (a y e : Q) :
  a < 0 -> 0 < y -> 0 < e ->
  exists l, WebOld.calculate_locals a y e = Ok l /\
    WebOld.energy_kwh l < 0 /\ WebOld.biochar_kg l < 0 /\
    WebOld.co2_eq l < 0 /\ WebOld.revenue l < 0.
Proof.
  intros Ha Hy He.
  destruct (WebOld_calculate_locals_Q a y e)
    as (l & E & Hh & Hk & Hb & Hm & Hc & Hr & _).
  exists l. split; [exact E|].
  rewrite Hr, Hc, Hm, Hb, Hk, Hh. q_inverses.
  assert (N : a * y < 0 * y) by (apply Qmult_lt_compat_r; assumption).
  assert (N2 : a * y * e < 0 * y * e) by (apply Qmult_lt_compat_r; assumption).
  repeat split; lra.
Qed.

(** C5, amended: the engines of variant B do not reject an input outside
    the declared domain, they compute with it.  Over the rationals, for
    every negative area with positive yield and efficiency, [calculate]
    returns a record, and the energy, biochar, CO2-equivalent and revenue in
    it are negative; in binary64, on [float] arguments, the calls with a
    negative area, a negative yield, an efficiency above 1, of 0 or below 0,
    an infinite area and a NaN area listed in [invalid_float_inputs] all
    return a record. *)
Theorem invalid_inputs_are_computed :
  (forall a y e : Q,
     a < 0 -> 0 < y -> 0 < e ->
     exists r, Gui.calculate Gui.init a y e = Ok (r, Gui.init) /\
       Gui.key_energy r < 0 /\ Gui.key_biochar r < 0 /\
       Gui.key_co2 r < 0 /\ Gui.key_revenue r < 0) /\
  (forall a y e : Q,
     a < 0 -> 0 < y -> 0 < e ->
     exists energy_kwh biochar_kg co2_eq revenue payback,
       WebOld.calculate a y e
         = Ok (energy_kwh, biochar_kg, co2_eq, revenue, payback) /\
       energy_kwh < 0 /\ biochar_kg < 0 /\ co2_eq < 0 /\ revenue < 0) /\
  forallb both_return invalid_float_inputs = true.
Proof.
  split; [|split].
  - intros a y e Ha Hy He.
    destruct (Gui_negative_area a y e Ha Hy He) as (l & E & N).
    exists (Gui.results_of l).
    split; [apply Gui_calculate_of_locals, E|]. gui_fields. exact N.
  - intros a y e Ha Hy He.
    destruct (WebOld_negative_area a y e Ha Hy He) as (l & E & N).
    exists (WebOld.energy_kwh l), (WebOld.biochar_kg l), (WebOld.co2_eq l),
           (WebOld.revenue l), (WebOld.payback l).
    split; [apply WebOld_calculate_of_locals, E | exact N].
  - vm_compute. reflexivity.
Qed.

(** Area=-1 at yield 4500 and efficiency 0.70: a record comes back, with
    negative energy, biochar, CO2-equivalent and revenue. *)
Lemma invalid_inputs_are_computed_witness :
  exists r, Gui.calculate (T := Q) Gui.init (-1) 4500 0.70
              = Ok (r, Gui.init) /\
    Gui.key_energy r < 0 /\ Gui.key_biochar r < 0 /\
    Gui.key_co2 r < 0 /\ Gui.key_revenue r < 0.
Proof.
  apply (proj1 invalid_inputs_are_computed (-1) 4500 0.70); reflexivity.
Defined.

(** ** Variant A on its domain *)




(** ** Methane avoided *)








(** ** The two implementations of variant B *)

(** C9: the desktop engine and the old web engine of variant B return
    the same energy, biochar, CO2-equivalent and revenue for every input
    (the dictionary of the one against the tuple of the other), having
    computed the same capex and profit, and the same payback whenever the
    profit is positive; when it is not, the desktop engine returns 99.9
    and the old web engine returns 0, two different numbers.  Over the
    rationals and in binary64. *)
Theorem variant_B_implementations_agree :
  (forall a y e : Q,
     exists lg lw r t,
       Gui.calculate_locals Gui.init a y e = Ok lg /\
       WebOld.calculate_locals a y e = Ok lw /\
       Gui.calculate Gui.init a y e = Ok (r, Gui.init) /\
       WebOld.calculate a y e = Ok t /\
       Gui.profit lg = WebOld.profit lw /\
       Gui.capex lg = WebOld.capex lw /\
       agree_returned r t (Gui.profit lg)) /\
  (forall a y e : float,
     exists lg lw r t,
       Gui.calculate_locals Gui.init a y e = Ok lg /\
       WebOld.calculate_locals a y e = Ok lw /\
       Gui.calculate Gui.init a y e = Ok (r, Gui.init) /\
       WebOld.calculate a y e = Ok t /\
       Gui.profit lg = WebOld.profit lw /\
       Gui.capex lg = WebOld.capex lw /\
       agree_returned r t (Gui.profit lg)) /\
  ~ (99.9 == 0) /\
  PrimFloat.eqb 99.9 0 = false.
Proof.
  split; [|split; [|split]].
  - intros a y e.
    destruct (variant_B_agree Q_div_3_6 Q_div_1000 Q_div_positive a y e)
      as (lg & lw & Eg & Ew & Ae & Ab & Ac & Ar & Ax & Ap & Ag).
    exists lg, lw. do 2 eexists.
    split; [exact Eg|]. split; [exact Ew|].
    split; [apply Gui_calculate_of_locals, Eg|].
    split; [apply WebOld_calculate_of_locals, Ew|].
    split; [exact Ap|]. split; [exact Ax|].
    unfold agree_returned. gui_fields.
    repeat (split; [assumption|]). exact Ag.
  - intros a y e.
    destruct (variant_B_agree float_div_3_6 float_div_1000
                float_div_positive a y e)
      as (lg & lw & Eg & Ew & Ae & Ab & Ac & Ar & Ax & Ap & Ag).
    exists lg, lw. do 2 eexists.
    split; [exact Eg|]. split; [exact Ew|].
    split; [apply Gui_calculate_of_locals, Eg|].
    split; [apply WebOld_calculate_of_locals, Ew|].
    split; [exact Ap|]. split; [exact Ax|].
    unfold agree_returned. gui_fields.
    repeat (split; [assumption|]). exact Ag.
  - discriminate.
  - reflexivity.
Qed.

(** ** Emissions and the other inputs *)

(** At area 0.3 in binary64 the CO2-equivalent both engines return,
    [0.3 * (30 - 16) * 28] evaluated left to right, is 117.60000000000001,
    which is not the double [392 * 0.3]. *)
Lemma co2_not_392_area_in_binary64 :
  exists r energy_kwh biochar_kg co2_eq revenue payback,
    Gui.calculate Gui.init 0.3%float 4500%float 0.70%float
      = Ok (r, Gui.init) /\
    WebOld.calculate 0.3%float 4500%float 0.70%float
      = Ok (energy_kwh, biochar_kg, co2_eq, revenue, payback) /\
    Gui.key_co2 r = 117.60000000000001%float /\
    co2_eq = 117.60000000000001%float /\
    PrimFloat.eqb (Gui.key_co2 r) (392 * 0.3)%float = false /\
    PrimFloat.eqb co2_eq (392 * 0.3)%float = false.
Proof.
  do 6 eexists. split; [vm_compute; reflexivity|].
  split; [vm_compute; reflexivity|].
  cbn [Gui.key_co2]. repeat split; vm_compute; reflexivity.
Qed.

Lemma emissions_returned_Q (a y e : Q) :
  exists lg lw r energy_kwh biochar_kg revenue payback,
    Gui.calculate_locals Gui.init a y e = Ok lg /\
    WebOld.calculate_locals a y e = Ok lw /\
    Gui.calculate Gui.init a y e = Ok (r, Gui.init) /\
    WebOld.calculate a y e
      = Ok (energy_kwh, biochar_kg, spec_co2_of_area a, revenue, payback) /\
    Gui.ch4_saved lg = spec_ch4_of_area a /\
    WebOld.ch4_saved lw = spec_ch4_of_area a /\
    Gui.key_co2 r = spec_co2_of_area a.
Proof.
  destruct (Gui_calculate_locals_returns Q_div_3_6 Q_div_1000
              Q_div_positive Gui.init a y e)
    as (lg & Eg & _ & _ & _ & Gm & Gc & _).
  destruct (WebOld_calculate_locals_returns Q_div_3_6 Q_div_1000
              Q_div_positive a y e)
    as (lw & Ew & _ & _ & _ & Wm & Wc & _).
  exists lg, lw, (Gui.results_of lg), (WebOld.energy_kwh lw),
    (WebOld.biochar_kg lw), (WebOld.revenue lw), (WebOld.payback lw).
  split; [exact Eg|]. split; [exact Ew|].
  split; [apply Gui_calculate_of_locals, Eg|].
  split.
  { rewrite (WebOld_calculate_of_locals a y e lw Ew).
    rewrite Wc, Wm. reflexivity. }
  split; [exact Gm|]. split; [exact Wm|].
  cbn [Gui.results_of Gui.key_co2]. rewrite Gc, Gm. reflexivity.
Qed.

Lemma emissions_returned_float (a y e : float) :
  exists lg lw r energy_kwh biochar_kg revenue payback,
    Gui.calculate_locals Gui.init a y e = Ok lg /\
    WebOld.calculate_locals a y e = Ok lw /\
    Gui.calculate Gui.init a y e = Ok (r, Gui.init) /\
    WebOld.calculate a y e
      = Ok (energy_kwh, biochar_kg, spec_co2_of_area a, revenue, payback) /\
    Gui.ch4_saved lg = spec_ch4_of_area a /\
    WebOld.ch4_saved lw = spec_ch4_of_area a /\
    Gui.key_co2 r = spec_co2_of_area a.
Proof.
  destruct (Gui_calculate_locals_returns float_div_3_6 float_div_1000
              float_div_positive Gui.init a y e)
    as (lg & Eg & _ & _ & _ & Gm & Gc & _).
  destruct (WebOld_calculate_locals_returns float_div_3_6 float_div_1000
              float_div_positive a y e)
    as (lw & Ew & _ & _ & _ & Wm & Wc & _).
  exists lg, lw, (Gui.results_of lg), (WebOld.energy_kwh lw),
    (WebOld.biochar_kg lw), (WebOld.revenue lw), (WebOld.payback lw).
  split; [exact Eg|]. split; [exact Ew|].
  split; [apply Gui_calculate_of_locals, Eg|].
  split.
  { rewrite (WebOld_calculate_of_locals a y e lw Ew).
    rewrite Wc, Wm. reflexivity. }
  split; [exact Gm|]. split; [exact Wm|].
  cbn [Gui.results_of Gui.key_co2]. rewrite Gc, Gm. reflexivity.
Qed.

(** C10, amended: in variant B the methane saved and the CO2-equivalent
    returned depend on the area alone.  For every input both engines
    compute [area*(30-16)] and return [area*(30-16)*28], evaluated left to
    right, over the rationals and in binary64, so that two inputs with the
    same area and any yields and efficiencies return the same
    CO2-equivalent.  Over the rationals that value is [392*area]; in
    binary64 it is the double [392*area] at each position 1..100 of the
    area slider, for every yield and efficiency (not at every double
    area). *)
Theorem emissions_depend_on_area_only :
  (forall a y e : Q,
     exists lg lw r energy_kwh biochar_kg revenue payback,
       Gui.calculate_locals Gui.init a y e = Ok lg /\
       WebOld.calculate_locals a y e = Ok lw /\
       Gui.calculate Gui.init a y e = Ok (r, Gui.init) /\
       WebOld.calculate a y e
         = Ok (energy_kwh, biochar_kg, spec_co2_of_area a, revenue, payback) /\
       Gui.ch4_saved lg = spec_ch4_of_area a /\
       WebOld.ch4_saved lw = spec_ch4_of_area a /\
       Gui.key_co2 r = spec_co2_of_area a) /\
  (forall a : Q,
     spec_ch4_of_area a == 14 * a /\ spec_co2_of_area a == 392 * a) /\
  (forall a y e : float,
     exists lg lw r energy_kwh biochar_kg revenue payback,
       Gui.calculate_locals Gui.init a y e = Ok lg /\
       WebOld.calculate_locals a y e = Ok lw /\
       Gui.calculate Gui.init a y e = Ok (r, Gui.init) /\
       WebOld.calculate a y e
         = Ok (energy_kwh, biochar_kg, spec_co2_of_area a, revenue, payback) /\
       Gui.ch4_saved lg = spec_ch4_of_area a /\
       WebOld.ch4_saved lw = spec_ch4_of_area a /\
       Gui.key_co2 r = spec_co2_of_area a) /\
  (forall (k : Z) (y e : float),
     In k slider_areas ->
     exists r energy_kwh biochar_kg revenue payback,
       Gui.calculate Gui.init (float_of_Z k) y e = Ok (r, Gui.init) /\
       WebOld.calculate (float_of_Z k) y e
         = Ok (energy_kwh, biochar_kg, float_of_Z (392 * k), revenue,
               payback) /\
       Gui.key_co2 r = float_of_Z (392 * k)).
Proof.
  split; [exact emissions_returned_Q|].
  split.
  { intros a. unfold spec_co2_of_area, spec_ch4_of_area. q_ops.
    split; ring. }
  split; [exact emissions_returned_float|].
  intros k y e Ik.
  assert (C : forallb co2_is_392_area slider_areas = true)
    by (vm_compute; reflexivity).
  rewrite forallb_forall in C. specialize (C k Ik).
  unfold co2_is_392_area in C. apply FloatAxioms.Leibniz.eqb_spec in C.
  destruct (emissions_returned_float (float_of_Z k) y e)
    as (lg & lw & r & en & bc & rev & pb & _ & _ & Eg & Ew & _ & _ & Kc).
  exists r, en, bc, rev, pb. rewrite <- C.
  split; [exact Eg|]. split; [exact Ew | exact Kc].
Qed.

(** ** The economics of variant B *)

Lemma py_max_Q (c : Q) :
  (c < 5 /\ py_max c 5 = 5) \/ (5 <= c /\ py_max c 5 = c).
Proof.
  unfold py_max. q_ops. destruct (Q_gt 5 c) eqn:G.
  - left. split; [apply Q_gt_true, G | reflexivity].
  - right. split; [apply Q_gt_false, G | reflexivity].
Qed.

(** The frame of the old web engine over the rationals, in terms of the
    husk mass [h = a*y*0.22] and the product [h*e]. *)
Lemma WebOld_economics_Q (a y e : Q) :
  exists l, WebOld.calculate_locals a y e = Ok l /\
    WebOld.energy_kwh l == (9 # 8) * (a * y * 0.22 * e) /\
    WebOld.biochar_kg l == (1 # 5) * (a * y * 0.22) /\
    WebOld.revenue l == (63 # 8) * (a * y * 0.22 * e) + 3 * (a * y * 0.22) /\
    ((WebOld.energy_kwh l < 5000 /\ WebOld.capex l == 400000) \/
     (5000 <= WebOld.energy_kwh l /\
      WebOld.capex l == 80 * WebOld.energy_kwh l)) /\
    WebOld.profit l == WebOld.revenue l - (1 # 10) * WebOld.capex l /\
    (WebOld.profit l <= 0 -> WebOld.payback l = 0) /\
    (0 < WebOld.profit l ->
     WebOld.payback l = WebOld.capex l / WebOld.profit l).
Proof.
  destruct (WebOld_calculate_locals_returns Q_div_3_6 Q_div_1000
              Q_div_positive a y e)
    as (l & E & Hh & He & Hb & _ & _ & Hc & Hx & Hr & Hp & Hg).
  q_ops. apply Q_truediv_Ok in He, Hc. apply Q_guard in Hg.
  destruct He as [He _], Hc as [Hc _].
  exists l. split; [exact E|].
  assert (Ee : WebOld.energy_kwh l == (9 # 8) * (a * y * 0.22 * e)).
  { rewrite He, Hh. q_inverses. ring. }
  assert (Eb : WebOld.biochar_kg l == (1 # 5) * (a * y * 0.22)).
  { rewrite Hb, Hh. ring. }
  assert (Er : WebOld.revenue l
               == (63 # 8) * (a * y * 0.22 * e) + 3 * (a * y * 0.22)).
  { rewrite Hr, Ee, Eb. ring. }
  split; [exact Ee|]. split; [exact Eb|]. split; [exact Er|].
  split.
  - rewrite Hx, Hc.
    destruct (py_max_Q (WebOld.energy_kwh l / 1000)) as [[L M]|[L M]];
      rewrite M; q_inverses.
    + left. split; [lra | ring].
    + right. split; [lra | ring].
  - split; [rewrite Hp; ring | exact Hg].
Qed.

Lemma WebOld_capex_floor (a y e : Q) l :
  ((WebOld.energy_kwh l < 5000 /\ WebOld.capex l == 400000) \/
   (5000 <= WebOld.energy_kwh l /\
    WebOld.capex l == 80 * WebOld.energy_kwh l)) ->
  400000 <= WebOld.capex l /\ 80 * WebOld.energy_kwh l <= WebOld.capex l.
Proof. intros [[L C]|[L C]]; rewrite C; split; lra. Qed.

(** Over the rationals, with an efficiency above 8/27, the payback of the
    old web engine is the sentinel or exceeds ten years. *)
Lemma WebOld_payback_long (a y e : Q) :
  (8 # 27) < e ->
  exists l, WebOld.calculate_locals a y e = Ok l /\
    ((WebOld.profit l <= 0 /\ WebOld.payback l = 0) \/
     (0 < WebOld.profit l /\
      WebOld.payback l = WebOld.capex l / WebOld.profit l /\
      10 < WebOld.payback l)).
Proof.
  intros He.
  destruct (WebOld_economics_Q a y e)
    as (l & E & Ee & _ & Er & Hc & Hp & Hs & Hd).
  exists l. split; [exact E|].
  destruct (WebOld_capex_floor a y e l Hc) as [F1 F2].
  destruct (Qlt_le_dec 0 (WebOld.profit l)) as [P|P].
  - right. split; [exact P|]. split; [exact (Hd P)|].
    rewrite (Hd P). apply Qlt_shift_div_l; [exact P|].
    destruct (Qlt_le_dec 0 (a * y * 0.22)) as [H|H].
    + assert (M : (8 # 27) * (a * y * 0.22) < e * (a * y * 0.22))
        by (apply Qmult_lt_compat_r; assumption).
      rewrite Hp, Er. rewrite Ee in F2. lra.
    + exfalso.
      assert (M : e * (a * y * 0.22) <= e * 0).
      { rewrite !(Qmult_comm e). apply Qmult_le_compat_r; [exact H | lra]. }
      rewrite Hp, Er in P. lra.
  - left. split; [exact P | exact (Hs P)].
Qed.

Lemma update_simulation_Q (self : Gui.RiceHuskMath Q) (a y e : Q) l :
  Gui.calculate_locals self a y e = Ok l ->
  exists s, update_simulation self a y e = Ok s /\
    Q_int (Gui.revenue l) = Ok (card_money s) /\
    lbl_payback s =
      (if Q_gt (Gui.payback l) 10 then MoreThan10Years
       else YearsOneDecimal (Gui.payback l)).
Proof.
  intros E. unfold update_simulation.
  cbn [py_int Q_PyInt]. unfold Q_int at 1 2 3. cbn [bind].
  rewrite (Gui_calculate_of_locals self a y e l E). cbn [bind fst].
  unfold Q_int at 1 2 3. cbn [bind].
  eexists. split; [reflexivity|]. cbn [card_money lbl_payback].
  gui_fields. split; reflexivity.
Qed.





(** X1: over the rationals, on a fresh [RiceHuskMath] and with an
    efficiency above 8/27 (the slider gives 0.40 to 0.90), the payback
    label of the desktop window reads "> 10 Years" for every area and
    yield: the payback is the sentinel 99.9 or a quotient above ten. *)
Theorem payback_label_over_10 (a y e : Q) :
  (8 # 27) < e ->
  exists s, update_simulation Gui.init a y e = Ok s /\
            lbl_payback s = MoreThan10Years.
Proof.
  intros He.
  destruct (variant_B_agree Q_div_3_6 Q_div_1000 Q_div_positive a y e)
    as (lg & lw & Eg & Ew & _ & _ & _ & _ & Ac & Ap & Ag).
  destruct (WebOld_payback_long a y e He) as (lw' & Ew' & L).
  rewrite Ew in Ew'. injection Ew' as <-.
  destruct (update_simulation_Q Gui.init a y e lg Eg) as (s & U & _ & P).
  exists s. split; [exact U|]. rewrite P. q_ops.
  assert (G : Q_gt (Gui.payback lg) 10 = true); [|rewrite G; reflexivity].
  apply Q_gt_true.
  destruct (Q_gt (Gui.profit lg) 0) eqn:T.
  - apply Q_gt_true in T. rewrite Ag.
    destruct L as [[N _]|[_ [_ N]]]; [|exact N].
    rewrite Ap in T. exfalso. apply (Qlt_not_le _ _ T N).
  - destruct Ag as [Ag _]. rewrite Ag. reflexivity.
Qed.

Lemma payback_label_over_10_witness :
  exists s, update_simulation (T := Q) Gui.init 50 4500 0.70 = Ok s /\
            lbl_payback s = MoreThan10Years.
Proof. apply payback_label_over_10. reflexivity. Defined.



(** X3: over the rationals, for every position 40 to 90 of the efficiency
    slider of the old web page and every area and yield, the page's
    payback is 0 (the sentinel) or more than ten years. *)
Theorem WebOld_page_payback (a y percent : Q) :
  40 <= percent -> percent <= 90 ->
  exists en bc co2 rev pb,
    WebOld_page a y percent = Ok (en, bc, co2, rev, pb) /\
    (pb = 0 \/ 10 < pb).
Proof.
  intros L U. unfold WebOld_page. q_ops.
  rewrite Q_truediv_nonzero by reflexivity. cbn [bind].
  assert (He : (8 # 27) < percent / 100).
  { unfold Qdiv. change (/ 100) with (1 # 100). lra. }
  destruct (WebOld_payback_long a y (percent / 100) He) as (l & E & P).
  rewrite (WebOld_calculate_of_locals a y (percent / 100) l E).
  do 5 eexists. split; [reflexivity|].
  destruct P as [[_ P]|[_ [_ P]]]; [left | right]; exact P.
Qed.

Lemma WebOld_page_payback_witness :
  exists en bc co2 rev pb,
    WebOld_page (T := Q) 50 4500 70 = Ok (en, bc, co2, rev, pb) /\
    (pb = 0 \/ 10 < pb).
Proof. apply WebOld_page_payback; vm_compute; congruence. Defined.

(** X4: over the rationals, for an input of the declared domain (area
    and yield non-negative, efficiency in (0,1]), in both engines of variant
    B the test [profit > 0] fails exactly when the revenue does not exceed
    40000, the yearly upkeep of the minimum 5 kW plant.  Then the payback is
    the sentinel; above 40000 it is [capex / profit], which in the old web
    engine is positive and so differs from its sentinel 0 (in the desktop
    engine the quotient can happen to be 99.9 itself). *)
Theorem sentinel_branch_iff_revenue_at_most_40000 (a y e : Q) :
  in_domain a y e ->
  exists lg lw,
    Gui.calculate_locals Gui.init a y e = Ok lg /\
    WebOld.calculate_locals a y e = Ok lw /\
    (Gui.revenue lg <= 40000 <-> Gui.profit lg <= 0) /\
    (Gui.revenue lg <= 40000 -> Gui.payback lg = 99.9) /\
    (40000 < Gui.revenue lg ->
     Gui.payback lg = Gui.capex lg / Gui.profit lg) /\
    (WebOld.revenue lw <= 40000 <-> WebOld.profit lw <= 0) /\
    (WebOld.revenue lw <= 40000 -> WebOld.payback lw = 0) /\
    (40000 < WebOld.revenue lw ->
     WebOld.payback lw = WebOld.capex lw / WebOld.profit lw /\
     0 < WebOld.payback lw).
Proof.
  intros (Ha & Hy & He & He1).
  destruct (variant_B_agree Q_div_3_6 Q_div_1000 Q_div_positive a y e)
    as (lg & lw & Eg & Ew & _ & _ & _ & Ar & Ac & Ap & Ag).
  destruct (WebOld_economics_Q a y e)
    as (lw' & Ew' & Ee & _ & Er & Hc & Hp & Hs & Hd).
  rewrite Ew in Ew'. injection Ew' as <-.
  exists lg, lw. split; [exact Eg|]. split; [exact Ew|].
  assert (H0 : 0 <= a * y * 0.22).
  { apply Qmult_le_0_compat; [|lra]. apply Qmult_le_0_compat; assumption. }
  assert (M0 : 0 <= a * y * 0.22 * e)
    by (apply Qmult_le_0_compat; [exact H0 | lra]).
  assert (M1 : a * y * 0.22 * e <= a * y * 0.22).
  { assert (X : e * (a * y * 0.22) <= 1 * (a * y * 0.22))
      by (apply Qmult_le_compat_r; assumption).
    lra. }
  assert (I : WebOld.revenue lw <= 40000 <-> WebOld.profit lw <= 0).
  { rewrite Hp, Er.
    destruct Hc as [[L C]|[L C]]; rewrite C.
    - rewrite Ee in L. split; intros R; lra.
    - rewrite Ee in L |- *. split; intros R; lra. }
  assert (Sg : Gui.profit lg <= 0 -> Gui.payback lg = 99.9).
  { intros P. apply Q_gt_false in P. q_ops. rewrite P in Ag. apply Ag. }
  assert (Dg : 0 < Gui.profit lg ->
               Gui.payback lg = Gui.capex lg / Gui.profit lg).
  { intros P. rewrite Ac, Ap. rewrite Ap in P. rewrite <- (Hd P).
    apply Q_gt_true in P. q_ops. rewrite <- Ap in P. rewrite P in Ag.
    exact Ag. }
  rewrite Ar, Ap.
  split; [exact I|].
  split; [intros R; apply Sg; rewrite Ap; apply I, R|].
  split.
  { intros R. rewrite <- Ap. apply Dg. rewrite Ap.
    apply Qnot_le_lt. intros P. apply I in P.
    apply (Qlt_not_le _ _ R P). }
  split; [exact I|].
  split; [intros R; apply Hs, I, R|].
  intros R.
  assert (P : 0 < WebOld.profit lw).
  { apply Qnot_le_lt. intros P. apply I in P. apply (Qlt_not_le _ _ R P). }
  split; [exact (Hd P)|].
  rewrite (Hd P). apply Qlt_shift_div_l; [exact P|].
  destruct (WebOld_capex_floor a y e lw Hc) as [F _]. lra.
Qed.

Lemma sentinel_branch_iff_revenue_at_most_40000_witness :
  exists lg lw,
    Gui.calculate_locals (T := Q) Gui.init 1 2000 0.40 = Ok lg /\
    WebOld.calculate_locals (T := Q) 1 2000 0.40 = Ok lw /\
    Gui.payback lg = 99.9 /\ WebOld.payback lw = 0.
Proof.
  destruct (sentinel_branch_iff_revenue_at_most_40000 1 2000 0.40)
    as (lg & lw & Eg & Ew & _ & Sg & _ & _ & Sw & _).
  { unfold in_domain. repeat split; vm_compute; congruence. }
  exists lg, lw. split; [exact Eg|]. split; [exact Ew|].
  split.
  - apply Sg. vm_compute in Eg. injection Eg as <-. vm_compute. discriminate.
  - apply Sw. vm_compute in Ew. injection Ew as <-. vm_compute. discriminate.
Defined.

Lemma payback_closed_form (h e : Q) :
  0 < h -> e <= 1 ->
  80 * ((9 # 8) * (h * e))
    / ((63 # 8) * (h * e) + 3 * h - (1 # 10) * (80 * ((9 # 8) * (h * e))))
  == 90 * e / (3 - (9 # 8) * e).
Proof.
  intros Hh He. field. split.
  - intros Z. lra.
  - intros Z.
    assert (X : e * h <= 1 * h) by (apply Qmult_le_compat_r; lra).
    lra.
Qed.

(** X5: over the rationals, for an input of the declared domain whose
    energy reaches 5000 kWh (a plant of 5 kW or more), the profit is
    positive and the payback of both engines of variant B is
    [90*e / (3 - 1.125*e)]: it depends on the efficiency alone, not on area
    or yield. *)
Theorem payback_depends_on_efficiency_only (a y e : Q) :
  in_domain a y e ->
  exists lg lw,
    Gui.calculate_locals Gui.init a y e = Ok lg /\
    WebOld.calculate_locals a y e = Ok lw /\
    Gui.energy_kwh lg = WebOld.energy_kwh lw /\
    (5000 <= WebOld.energy_kwh lw ->
     0 < WebOld.profit lw /\
     WebOld.payback lw == 90 * e / (3 - (9 # 8) * e) /\
     Gui.payback lg == 90 * e / (3 - (9 # 8) * e)).
Proof.
  intros (Ha & Hy & He & He1).
  destruct (variant_B_agree Q_div_3_6 Q_div_1000 Q_div_positive a y e)
    as (lg & lw & Eg & Ew & Ae & _ & _ & _ & _ & Ap & Ag).
  destruct (WebOld_economics_Q a y e)
    as (lw' & Ew' & Ee & _ & Er & Hc & Hp & _ & Hd).
  rewrite Ew in Ew'. injection Ew' as <-.
  exists lg, lw. split; [exact Eg|]. split; [exact Ew|].
  split; [exact Ae|]. intros Big.
  set (h := a * y * 0.22) in *.
  assert (H0 : 0 <= h).
  { apply Qmult_le_0_compat; [|lra]. apply Qmult_le_0_compat; assumption. }
  assert (Hpos : 0 < h).
  { destruct (Qlt_le_dec 0 h) as [P|P]; [exact P|].
    assert (Z : h == 0) by (apply Qle_antisym; assumption).
    rewrite Ee, Z in Big. exfalso. lra. }
  assert (X : e * h <= 1 * h) by (apply Qmult_le_compat_r; lra).
  destruct Hc as [[L _]|[_ C]]; [exfalso; lra|].
  assert (Pe : WebOld.profit lw
               == (63 # 8) * (h * e) + 3 * h
                  - (1 # 10) * (80 * ((9 # 8) * (h * e)))).
  { rewrite Hp, Er, C, Ee. ring. }
  assert (P : 0 < WebOld.profit lw) by (rewrite Pe; lra).
  assert (W : WebOld.payback lw == 90 * e / (3 - (9 # 8) * e)).
  { rewrite (Hd P). rewrite Pe, C, Ee.
    apply payback_closed_form; assumption. }
  split; [exact P|]. split; [exact W|].
  rewrite <- Ap in P. apply Q_gt_true in P. q_ops. rewrite P in Ag.
  rewrite Ag. exact W.
Qed.

(** Area 50 at yield 4500 and efficiency 0.70 gives 38981.25 kWh, and a
    payback of [63 / 2.2125] years. *)
Lemma payback_depends_on_efficiency_only_witness :
  exists lw,
    WebOld.calculate_locals (T := Q) 50 4500 0.70 = Ok lw /\
    WebOld.payback lw == 90 * 0.70 / (3 - (9 # 8) * 0.70).
Proof.
  destruct (payback_depends_on_efficiency_only 50 4500 0.70)
    as (lg & lw & _ & Ew & _ & B).
  { unfold in_domain. repeat split; vm_compute; congruence. }
  exists lw. split; [exact Ew|].
  apply B. vm_compute in Ew. injection Ew as <-. vm_compute. discriminate.
Defined.

Lemma Q_int_above (q : Q) (z : Z) : Q_int q = Ok z -> q - 1 < inject_Z z.
Proof.
  unfold Q_int. intros [= <-].
  destruct q as [n d]. cbn [Qnum Qden].
  assert (R : (Z.rem n (Zpos d) < Zpos d)%Z).
  { destruct (Z_lt_le_dec n 0) as [N|N].
    - assert (B := Z.rem_nonpos n (Zpos d)). lia.
    - assert (B := Z.rem_bound_pos_pos n (Zpos d)). lia. }
  assert (E := Z.quot_rem' n (Zpos d)).
  unfold Qlt, Qminus, Qplus, Qopp, inject_Z. cbn [Qnum Qden].
  nia.
Qed.

(** X6: over the rationals, for every input, the capital cost of variant
    B is at least 400000 (the 5 kW minimum at 80000 per kW) and at least
    80 times the energy; the revenue [calculate] returns exceeds the profit
    by a tenth of the capital cost, 40000 at least; and the number the
    desktop window puts on its "Annual Profit Potential" card is
    [int(revenue)], which exceeds the profit by more than 39999. *)
Theorem capex_floor_and_money_card (a y e : Q) :
  exists l r s,
    Gui.calculate_locals Gui.init a y e = Ok l /\
    Gui.calculate Gui.init a y e = Ok (r, Gui.init) /\
    update_simulation Gui.init a y e = Ok s /\
    400000 <= Gui.capex l /\
    80 * Gui.key_energy r <= Gui.capex l /\
    Gui.key_revenue r - Gui.profit l == (1 # 10) * Gui.capex l /\
    40000 <= Gui.key_revenue r - Gui.profit l /\
    py_int (Gui.key_revenue r) = Ok (card_money s) /\
    39999 < inject_Z (card_money s) - Gui.profit l.
Proof.
  destruct (variant_B_agree Q_div_3_6 Q_div_1000 Q_div_positive a y e)
    as (lg & lw & Eg & Ew & Ae & _ & _ & Ar & Ac & Ap & _).
  destruct (WebOld_economics_Q a y e)
    as (lw' & Ew' & _ & _ & _ & Hc & Hp & _).
  rewrite Ew in Ew'. injection Ew' as <-.
  destruct (WebOld_capex_floor a y e lw Hc) as [F1 F2].
  destruct (update_simulation_Q Gui.init a y e lg Eg) as (s & U & M & _).
  exists lg, (Gui.results_of lg), s. split; [exact Eg|].
  split; [apply Gui_calculate_of_locals, Eg|]. split; [exact U|].
  gui_fields. cbn [py_int Q_PyInt].
  assert (T := Q_int_above _ _ M).
  rewrite Ac, Ae, Ap. rewrite Ar in T |- *.
  split; [exact F1|]. split; [exact F2|].
  split; [rewrite Hp; ring|]. split; [rewrite Hp; lra|].
  split; [rewrite <- Ar; exact M|]. rewrite Hp. lra.
Qed.

(** ** The calculation block of variant A, all globals *)

Lemma WebApp_frame_Q (c : WebApp.Constants Q) (i : WebApp.Inputs Q) :
  exists g, WebApp.calculations c i = Ok g /\
    WebApp.husk_mass g = WebApp.area i * WebApp.yield_per_ha i * 0.22 /\
    WebApp.energy_kwh g =
      WebApp.husk_mass g * WebApp.CV_HUSK c * WebApp.efficiency i / 3.6 /\
    WebApp.biochar_mass g = WebApp.husk_mass g * WebApp.BIOCHAR_YIELD c /\
    WebApp.methane_flooded g =
      WebApp.EF_FLOODED c * WebApp.area i * WebApp.season_days i /\
    WebApp.methane_awd g =
      WebApp.EF_AWD c * WebApp.area i * WebApp.season_days i /\
    WebApp.methane_avoided g
      = WebApp.methane_flooded g - WebApp.methane_awd g /\
    WebApp.co2_eq_tons g = WebApp.methane_avoided g * 28 / 1000 /\
    WebApp.revenue_carbon g
      = WebApp.co2_eq_tons g * WebApp.PRICE_CARBON_CREDIT c /\
    WebApp.revenue_elec g = WebApp.energy_kwh g * WebApp.PRICE_ELEC c /\
    WebApp.revenue_char g = WebApp.biochar_mass g * WebApp.PRICE_CHAR c /\
    WebApp.total_revenue g
      = WebApp.revenue_elec g + WebApp.revenue_char g
        + WebApp.revenue_carbon g.
Proof.
  unfold WebApp.calculations. cbv zeta. q_ops.
  rewrite !Q_truediv_nonzero by reflexivity. cbn [bind].
  eexists. split; [reflexivity|]. webapp_fields.
  repeat split; reflexivity.
Qed.

Lemma mapM_Ok {A B : Type} (f : A -> outcome B) (g : A -> B) (l : list A) :
  (forall a, In a l -> f a = Ok (g a)) -> mapM f l = Ok (List.map g l).
Proof.
  induction l as [|a l IH]; intros F; [reflexivity|].
  cbn [mapM List.map]. rewrite (F a (or_introl eq_refl)), IH.
  - reflexivity.
  - intros b Ib. apply F. right. exact Ib.
Qed.

Lemma Forall2_combine_map {A B C : Type} (P : A -> B * C -> Prop)
    (f : A -> B) (g : A -> C) (l : list A) :
  (forall a, In a l -> P a (f a, g a)) ->
  Forall2 P l (List.combine (List.map f l) (List.map g l)).
Proof.
  induction l as [|a l IH]; intros H; cbn [List.map List.combine].
  - constructor.
  - constructor; [apply H; left; reflexivity|].
    apply IH. intros b Ib. apply H. right. exact Ib.
Qed.

Lemma wrap_int64_small (z : Z) :
  (- 2 ^ 63 <= z < 2 ^ 63)%Z -> wrap_int64 z = z.
Proof.
  intros B. unfold wrap_int64. rewrite Z.mod_small; lia.
Qed.

Lemma areas_range_bounds (a : Z) : In a areas_range -> (1 <= a <= 46)%Z.
Proof.
  change areas_range with [1; 6; 11; 16; 21; 26; 31; 36; 41; 46]%Z.
  cbn [In]. lia.
Qed.

(** X7: the second chart of the two web pages sweeps the ten areas 1, 6,
    ..., 46 (it stops short of 50).  Over the rationals, for an integer
    yield whose 46-fold fits in 64 bits (the slider gives 2000 to 8000) and
    any efficiency and season length, both series are computed without
    error, and at each area the green series is the CO2-equivalent the
    calculation block gives for that area, while the blue "Revenue" series
    is the revenue from electricity alone: it falls short of the total
    revenue by the biochar and carbon-credit revenues. *)
Theorem sweep_agrees_with_calculations :
  areas_range = [1; 6; 11; 16; 21; 26; 31; 36; 41; 46]%Z /\
  forall (y : Z) (e d : Q),
    (- 2 ^ 63 <= 46 * y)%Z -> (46 * y < 2 ^ 63)%Z ->
    exists ss rs,
      savings_range WebApp.constants d = Ok ss /\
      revenue_range WebApp.constants y e = Ok rs /\
      Forall2 (sweep_matches y e d) areas_range (List.combine ss rs).
Proof.
  split; [reflexivity|]. intros y e d Lo Hi.
  assert (W : forall a, In a areas_range ->
               wrap_int64 (a * y)%Z = (a * y)%Z).
  { intros a Ia. apply areas_range_bounds in Ia.
    apply wrap_int64_small. nia. }
  set (s := fun a : Z =>
    (WebApp.EF_FLOODED WebApp.constants - WebApp.EF_AWD WebApp.constants)
    * inject_Z a * d * 28 / 1000).
  set (r := fun a : Z =>
    inject_Z (a * y) * 0.22 * WebApp.CV_HUSK WebApp.constants * e / 3.6
    * WebApp.PRICE_ELEC WebApp.constants).
  exists (List.map s areas_range), (List.map r areas_range).
  split; [|split].
  - unfold savings_range. apply mapM_Ok. intros a _.
    unfold savings_point. q_ops.
    rewrite Q_truediv_nonzero by reflexivity. reflexivity.
  - unfold revenue_range. apply mapM_Ok. intros a Ia.
    unfold revenue_point. q_ops. rewrite (W a Ia).
    rewrite Q_truediv_nonzero by reflexivity. reflexivity.
  - apply Forall2_combine_map. intros a _. unfold sweep_matches, WebApp.run.
    destruct (WebApp_frame_Q WebApp.constants
                (inputs_A (inject_Z a) (inject_Z y) e d))
      as (g & E & Hh & Hk & Hb & Hf & Hw & Hm & Hc & Hx & He & Hy & Hr).
    exists g. split; [exact E|].
    cbn [fst snd]. unfold s, r. webapp_consts. q_ops.
    rewrite Hr, Hx, He, Hy, Hc, Hm, Hf, Hw, Hb, Hk, Hh. q_inverses.
    rewrite inject_Z_mult.
    repeat split; ring.
Qed.

(** The yield slider starts at 4500. *)
Lemma sweep_agrees_with_calculations_witness :
  exists ss rs,
    savings_range (T := Q) WebApp.constants 120 = Ok ss /\
    revenue_range (T := Q) WebApp.constants 4500 0.70 = Ok rs /\
    Forall2 (sweep_matches 4500 0.70 120) areas_range (List.combine ss rs).
Proof.
  apply (proj2 sweep_agrees_with_calculations 4500%Z 0.70 120);
    vm_compute; congruence.
Defined.

(** ** What each group of globals of variant A depends on *)

Section Separation.
Context {T : Type} `{Arith T}.
Local Open Scope num_scope.

Hypothesis div_3_6 : forall x, returns (x / lit 3.6).
Hypothesis div_1000 : forall x, returns (x / lit 1000).

Lemma WebApp_emissions_closed (c : WebApp.Constants T) (i : WebApp.Inputs T) :
  WebApp_emissions c i =
  (let flooded := WebApp.EF_FLOODED c * WebApp.area i * WebApp.season_days i in
   let awd := WebApp.EF_AWD c * WebApp.area i * WebApp.season_days i in
   co2 <- (flooded - awd) * lit 28 / lit 1000 ;;
   Ok (flooded, awd, flooded - awd, co2,
       co2 * WebApp.PRICE_CARBON_CREDIT c)).
Proof.
  unfold WebApp_emissions, WebApp.calculations. cbv zeta.
  match goal with
  | |- context [bind (?x / lit 3.6) _] =>
      destruct (div_3_6 x) as [q E]; rewrite E; cbn [bind]
  end.
  match goal with
  | |- context [bind (?x / lit 1000) _] =>
      destruct (div_1000 x) as [q' E']; rewrite E'; cbn [bind]
  end.
  reflexivity.
Qed.

Lemma WebApp_biomass_closed (c : WebApp.Constants T) (i : WebApp.Inputs T) :
  WebApp_biomass c i =
  (let total_paddy := WebApp.area i * WebApp.yield_per_ha i in
   let husk_mass := total_paddy * lit 0.22 in
   let energy_mj := husk_mass * WebApp.CV_HUSK c * WebApp.efficiency i in
   energy_kwh <- energy_mj / lit 3.6 ;;
   let biochar_mass := husk_mass * WebApp.BIOCHAR_YIELD c in
   Ok (total_paddy, husk_mass, energy_mj, energy_kwh, biochar_mass,
       energy_kwh * WebApp.PRICE_ELEC c,
       biochar_mass * WebApp.PRICE_CHAR c)).
Proof.
  unfold WebApp_biomass, WebApp.calculations. cbv zeta.
  match goal with
  | |- context [bind (?x / lit 3.6) _] =>
      destruct (div_3_6 x) as [q E]; rewrite E; cbn [bind]
  end.
  match goal with
  | |- context [bind (?x / lit 1000) _] =>
      destruct (div_1000 x) as [q' E']; rewrite E'; cbn [bind]
  end.
  reflexivity.
Qed.

Lemma WebApp_emissions_ignore_yield_efficiency (c : WebApp.Constants T)
    (a y1 e1 y2 e2 d : T) :
  WebApp_emissions c (inputs_A a y1 e1 d)
  = WebApp_emissions c (inputs_A a y2 e2 d).
Proof. rewrite !WebApp_emissions_closed. reflexivity. Qed.

Lemma WebApp_biomass_ignores_season (c : WebApp.Constants T)
    (a y e d1 d2 : T) :
  WebApp_biomass c (inputs_A a y e d1) = WebApp_biomass c (inputs_A a y e d2).
Proof. rewrite !WebApp_biomass_closed. reflexivity. Qed.

End Separation.

(** X8: in the calculation block of variant A, under any constants, the
    methane figures, the CO2-equivalent and the carbon-credit revenue do
    not depend on yield or efficiency, and paddy, husk, energy, biochar and
    the electricity and biochar revenues do not depend on the season
    length; over the rationals and in binary64. *)
Theorem variant_A_groups_are_separate :
  (forall (c : WebApp.Constants Q) (a y1 e1 y2 e2 d : Q),
     WebApp_emissions c (inputs_A a y1 e1 d)
     = WebApp_emissions c (inputs_A a y2 e2 d)) /\
  (forall (c : WebApp.Constants Q) (a y e d1 d2 : Q),
     WebApp_biomass c (inputs_A a y e d1)
     = WebApp_biomass c (inputs_A a y e d2)) /\
  (forall (c : WebApp.Constants float) (a y1 e1 y2 e2 d : float),
     WebApp_emissions c (inputs_A a y1 e1 d)
     = WebApp_emissions c (inputs_A a y2 e2 d)) /\
  (forall (c : WebApp.Constants float) (a y e d1 d2 : float),
     WebApp_biomass c (inputs_A a y e d1)
     = WebApp_biomass c (inputs_A a y e d2)).
Proof.
  split; [|split; [|split]].
  - apply (WebApp_emissions_ignore_yield_efficiency Q_div_3_6 Q_div_1000).
  - apply (WebApp_biomass_ignores_season Q_div_3_6 Q_div_1000).
  - apply (WebApp_emissions_ignore_yield_efficiency
             float_div_3_6 float_div_1000).
  - apply (WebApp_biomass_ignores_season float_div_3_6 float_div_1000).
Qed.

(** ** Scaling, empty farms and negative seasons *)

(** X9: over the rationals every output of variant A is proportional to
    the area: at [k] times the area, husk, energy, biochar, methane
    avoided, CO2-equivalent and total revenue are [k] times as large. *)
Theorem variant_A_linear_in_area (k a y e d : Q) :
  exists g gk,
    WebApp.run (inputs_A a y e d) = Ok g /\
    WebApp.run (inputs_A (k * a) y e d) = Ok gk /\
    scaled_outputs_A k g gk.
Proof.
  unfold WebApp.run.
  destruct (WebApp_frame_Q WebApp.constants (inputs_A a y e d))
    as (g & E & Hh & Hk & Hb & Hf & Hw & Hm & Hc & Hx & He & Hy & Hr).
  destruct (WebApp_frame_Q WebApp.constants (inputs_A (k * a) y e d))
    as (gk & E' & Hh' & Hk' & Hb' & Hf' & Hw' & Hm' & Hc' & Hx' & He' & Hy'
        & Hr').
  exists g, gk. split; [exact E|]. split; [exact E'|].
  unfold scaled_outputs_A. webapp_consts. q_ops.
  rewrite Hr', Hx', He', Hy', Hc', Hm', Hf', Hw', Hb', Hk', Hh'.
  rewrite Hr, Hx, He, Hy, Hc, Hm, Hf, Hw, Hb, Hk, Hh.
  q_inverses. repeat split; ring.
Qed.

(** X10: a farm of area zero.  Over the rationals, for every yield,
    efficiency and season length, variant A gives zero husk, energy,
    biochar, methane avoided, CO2-equivalent and revenue; variant B gives
    zero energy, biochar, CO2-equivalent and revenue, but still the capital
    cost 400000 of the minimum plant, the profit -40000 and the payback
    sentinel (99.9 in the desktop engine, 0 in the old web engine). *)
Theorem zero_area :
  (forall y e d : Q,
     exists g, WebApp.run (inputs_A 0 y e d) = Ok g /\
               zero_outputs_A g) /\
  (forall y e : Q,
     exists lg lw,
       Gui.calculate_locals Gui.init 0 y e = Ok lg /\
       WebOld.calculate_locals 0 y e = Ok lw /\
       agree_B lg lw /\
       WebOld.energy_kwh lw == 0 /\ WebOld.biochar_kg lw == 0 /\
       WebOld.co2_eq lw == 0 /\ WebOld.revenue lw == 0 /\
       WebOld.capex lw == 400000 /\ WebOld.profit lw == - (40000) /\
       Gui.payback lg = 99.9 /\ WebOld.payback lw = 0).
Proof.
  split.
  - intros y e d. unfold WebApp.run.
    destruct (WebApp_frame_Q WebApp.constants (inputs_A 0 y e d))
      as (g & E & Hh & Hk & Hb & Hf & Hw & Hm & Hc & Hx & He & Hy & Hr).
    exists g. split; [exact E|].
    unfold zero_outputs_A. webapp_consts. q_ops.
    rewrite Hr, Hx, He, Hy, Hc, Hm, Hf, Hw, Hb, Hk, Hh.
    q_inverses. repeat split; ring.
  - intros y e.
    destruct (variant_B_agree Q_div_3_6 Q_div_1000 Q_div_positive 0 y e)
      as (lg & lw & Eg & Ew & A).
    destruct (WebOld_economics_Q 0 y e)
      as (lw' & Ew' & Ee & Eb & Er & Hc & Hp & Hs & _).
    rewrite Ew in Ew'. injection Ew' as <-.
    destruct (WebOld_calculate_locals_Q 0 y e)
      as (lw' & Ew' & _ & _ & _ & Hm & Hco & _).
    rewrite Ew in Ew'. injection Ew' as <-.
    exists lg, lw. split; [exact Eg|]. split; [exact Ew|].
    split; [exact A|].
    assert (Ze : WebOld.energy_kwh lw == 0) by (rewrite Ee; ring).
    assert (Zr : WebOld.revenue lw == 0) by (rewrite Er; ring).
    assert (Zc : WebOld.capex lw == 400000).
    { destruct Hc as [[_ C]|[L _]]; [exact C|]. rewrite Ze in L.
      exfalso. lra. }
    assert (Zp : WebOld.profit lw == - (40000))
      by (rewrite Hp, Zr, Zc; reflexivity).
    assert (N : WebOld.profit lw <= 0) by (rewrite Zp; discriminate).
    split; [exact Ze|]. split; [rewrite Eb; ring|].
    split; [rewrite Hco, Hm; ring|]. split; [exact Zr|].
    split; [exact Zc|]. split; [exact Zp|].
    split; [|exact (Hs N)].
    destruct A as (_ & _ & _ & _ & _ & Ap & Ag).
    rewrite <- Ap in N. apply Q_gt_false in N. q_ops. rewrite N in Ag.
    apply Ag.
Qed.

(** X11: nothing bounds the season length of variant A from below.  Over
    the rationals, for a positive area and a negative season length the
    block returns a negative methane saving, a negative CO2-equivalent and a
    negative carbon-credit revenue, so that the total revenue is below the
    sum of the electricity and biochar revenues; at season length zero the
    three are zero. *)
Theorem negative_season (a y e d : Q) :
  0 < a ->
  exists g, WebApp.run (inputs_A a y e d) = Ok g /\
    (d < 0 ->
     WebApp.methane_avoided g < 0 /\ WebApp.co2_eq_tons g < 0 /\
     WebApp.revenue_carbon g < 0 /\
     WebApp.total_revenue g < WebApp.revenue_elec g + WebApp.revenue_char g) /\
    (d == 0 ->
     WebApp.methane_avoided g == 0 /\ WebApp.co2_eq_tons g == 0 /\
     WebApp.revenue_carbon g == 0).
Proof.
  intros Ha. unfold WebApp.run.
  destruct (WebApp_frame_Q WebApp.constants (inputs_A a y e d))
    as (g & E & _ & _ & _ & Hf & Hw & Hm & Hc & Hx & _ & _ & Hr).
  exists g. split; [exact E|].
  webapp_consts. q_ops.
  rewrite Hr, Hx, Hc, Hm, Hf, Hw. q_inverses.
  split.
  - intros Hd.
    assert (N : d * a < 0 * a) by (apply Qmult_lt_compat_r; assumption).
    repeat split; lra.
  - intros Hd. rewrite Hd. repeat split; ring.
Qed.

Lemma negative_season_witness :
  exists g, WebApp.run (T := Q) (inputs_A 5 4500 0.70 (-30)) = Ok g /\
    WebApp.methane_avoided g < 0 /\ WebApp.co2_eq_tons g < 0 /\
    WebApp.revenue_carbon g < 0 /\
    WebApp.total_revenue g < WebApp.revenue_elec g + WebApp.revenue_char g.
Proof.
  destruct (negative_season 5 4500 0.70 (-30)) as (g & E & N & _);
    [reflexivity|].
  exists g. split; [exact E|]. apply N. reflexivity.
Defined.

(** ** The labels of the first chart *)

(** X12: over the rationals, for a non-negative area and season length
    the maximum of the two bars of the first chart is the flooded one, and
    with a non-negative offset (0.02 and 0.01 in the two pages) each label
    is written at or above the top of its bar; for a positive area and
    offset and a negative season length the maximum is the AWD bar and both
    labels are written below their values. *)
Theorem bar_labels (a y e d offset : Q) :
  exists g, WebApp.run (inputs_A a y e d) = Ok g /\
    (0 <= a -> 0 <= d -> 0 <= offset ->
     label_heights offset g
       = [WebApp.methane_flooded g + WebApp.methane_flooded g * offset;
          WebApp.methane_awd g + WebApp.methane_flooded g * offset] /\
     WebApp.methane_flooded g
       <= WebApp.methane_flooded g + WebApp.methane_flooded g * offset /\
     WebApp.methane_awd g
       <= WebApp.methane_awd g + WebApp.methane_flooded g * offset) /\
    (0 < a -> d < 0 -> 0 < offset ->
     label_heights offset g
       = [WebApp.methane_flooded g + WebApp.methane_awd g * offset;
          WebApp.methane_awd g + WebApp.methane_awd g * offset] /\
     WebApp.methane_flooded g + WebApp.methane_awd g * offset
       < WebApp.methane_flooded g /\
     WebApp.methane_awd g + WebApp.methane_awd g * offset
       < WebApp.methane_awd g).
Proof.
  unfold WebApp.run.
  destruct (WebApp_frame_Q WebApp.constants (inputs_A a y e d))
    as (g & E & _ & _ & _ & Hf & Hw & _).
  exists g. split; [exact E|].
  unfold label_heights, py_max_seq, py_max.
  cbn [List.fold_left List.map]. webapp_consts. q_ops.
  split.
  - intros Ha Hd Ho.
    assert (P : 0 <= a * d) by (apply Qmult_le_0_compat; assumption).
    assert (F : 0 <= WebApp.methane_flooded g) by (rewrite Hf; lra).
    assert (L : WebApp.methane_awd g <= WebApp.methane_flooded g)
      by (rewrite Hf, Hw; lra).
    apply Q_gt_false in L. rewrite L.
    assert (O : 0 <= WebApp.methane_flooded g * offset)
      by (apply Qmult_le_0_compat; assumption).
    split; [reflexivity|]. split; lra.
  - intros Ha Hd Ho.
    assert (N : d * a < 0 * a) by (apply Qmult_lt_compat_r; assumption).
    assert (W : WebApp.methane_awd g < 0) by (rewrite Hw; lra).
    assert (L : WebApp.methane_flooded g < WebApp.methane_awd g)
      by (rewrite Hf, Hw; lra).
    apply Q_gt_true in L. rewrite L.
    assert (O : WebApp.methane_awd g * offset < 0 * offset)
      by (apply Qmult_lt_compat_r; assumption).
    split; [reflexivity|]. split; lra.
Qed.

Lemma bar_labels_witness :
  exists g, WebApp.run (T := Q) (inputs_A 5 4500 0.70 120) = Ok g /\
    label_heights 0.02 g
      = [WebApp.methane_flooded g + WebApp.methane_flooded g * 0.02;
         WebApp.methane_awd g + WebApp.methane_flooded g * 0.02].
Proof.
  destruct (bar_labels 5 4500 0.70 120 0.02) as (g & E & P & _).
  exists g. split; [exact E|].
  apply P; vm_compute; congruence.
Defined.
